(** * Emotional prosody transfer: a shallow embedding of
      [emotional_prosody_transfer.py]

    The script loads two recordings, analyses both with the WORLD vocoder,
    pairs the pitch contour of the first with the spectral envelope and
    aperiodicity of the second, synthesises the result, writes it and plots
    the three pitch contours.

    Arrays live in a store and are passed by reference, as numpy arrays are.
    The script's own functions are state-and-exception computations over
    that store and over a log of the calls made to the outside world
    (librosa, pyworld, soundfile, matplotlib, the console).  Those libraries
    are not part of the script: they are fields of a record [externals], and
    a statement below holds for whatever they compute unless it names, as a
    hypothesis, the part of a library's contract it relies on. *)

From Stdlib Require Import ZArith Lia String.
From Stdlib Require Import PrimFloat.
From Stdlib Require Uint63.
From stdpp Require Import base tactics option list.

Local Open Scope Z_scope.
Local Open Scope nat_scope.

(** ** numpy's [resize] on the flat data of an array *)

Section Resize.
Context {A : Type}.
(** the zero of the array's element type, what [np.zeros_like] fills with *)
Variable zero : A.

(** [repeats = -(-new_size // a.size)], Python's floor division *)
Definition ceil_div (new_size size : nat) : nat :=
  Z.to_nat (- ((- Z.of_nat new_size) / Z.of_nat size))%Z.

(** [concatenate((a,) * repeats)] *)
Fixpoint tile (repeats : nat) (a : list A) : list A :=
  match repeats with
  | O => []
  | S r => a ++ tile r a
  end.

(** numpy.resize for a one-dimensional new shape:
<<
    a = ravel(a)
    if a.size == 0 or new_size == 0:
        return np.zeros_like(a, shape=new_shape)
    repeats = -(-new_size // a.size)
    a = concatenate((a,) * repeats)[:new_size]
>> *)
Definition resize_data (a : list A) (new_size : nat) : list A :=
  if (length a =? 0) || (new_size =? 0)
  then replicate new_size zero
  else take new_size (tile (ceil_div new_size (length a)) a).
End Resize.

(** ** Arrays, exceptions and the store *)

(** Element types of the arrays the script meets.  Whatever the element
    type, an element is stored as the double it denotes: an [Int64] array
    holds integral values, a [Bool] array holds 0 and 1. *)
Inductive dtype := Float32 | Float64 | Int64 | Bool.

(** A numpy array: its flat (C-order) data with a shape, and the mask of a
    [numpy.ma] masked array when it has one. *)
Record ndarray := NdArray {
  nd_dtype : dtype;
  nd_shape : list nat;
  nd_data : list float;
  nd_mask : option (list bool)
}.

Inductive exn_class :=
  IOError | ValueError | IndexError | TypeError | RuntimeError | SystemError
| EOFError.

Record exn := Exn { exn_class_of : exn_class; exn_msg : string }.

(** A reference to an array in the store. *)
Definition loc := nat.

(** What the script does that is visible from outside: console output, the
    calls into librosa, pyworld, soundfile and matplotlib with the values
    passed, and the execution of a [raise] statement of the script. *)
Inductive event :=
| Print (s : string)
| LibrosaLoad (file_path : string) (sr : Z) (mono : bool)
| PwDio (y : ndarray) (sr : Z) (frame_period : float)
| PwStonemask (y f0 t : ndarray) (sr : Z)
| PwCheaptrick (y f0 t : ndarray) (sr : Z)
| PwD4c (y f0 t : ndarray) (sr : Z)
| PwSynthesize (f0 sp ap : ndarray) (sr : Z) (frame_period : float)
| SfWrite (file : string) (y : ndarray) (sr : Z)
| PltFigure (width height : Z)
| PltPlot (x y : ndarray) (label color : string) (linestyle : option string)
          (linewidth : Z)
| PltTitle (s : string)
| PltXlabel (s : string)
| PltYlabel (s : string)
| PltLegend
| PltGrid (visible : bool)
| PltSavefig (save_path : string)
| PltClose
| Raised (e : exn).

Record state := State { heap : list ndarray; trace : list event }.

(** The libraries the script imports.  Each is a function of the values it
    is given; a failure is the exception it raises. *)
Record externals := Externals {
  librosa_load : string → Z → bool → exn + (ndarray * Z);
  pw_dio : ndarray → Z → float → exn + (ndarray * ndarray);
  pw_stonemask : ndarray → ndarray → ndarray → Z → exn + ndarray;
  pw_cheaptrick : ndarray → ndarray → ndarray → Z → exn + ndarray;
  pw_d4c : ndarray → ndarray → ndarray → Z → exn + ndarray;
  pw_synthesize : ndarray → ndarray → ndarray → Z → float → exn + ndarray;
  sf_write : string → ndarray → Z → option exn;
  plt_savefig : string → option exn;
  plt_plot : ndarray → ndarray → string → string → option string → Z
             → option exn
}.

(** ** The computation monad: a store, a log and exceptions *)

Definition M (A : Type) : Type := state → (exn + A) * state.

Definition ret {A} (x : A) : M A := λ st, (inr x, st).

Definition bind {A B} (m : M A) (k : A → M B) : M B :=
  λ st, match m st with
        | (inr x, st') => k x st'
        | (inl e, st') => (inl e, st')
        end.

Declare Scope py_scope.
Delimit Scope py_scope with py.
Notation "'do' x <- c1 ;; c2" := (bind c1 (λ x, c2))
  (at level 10, x pattern, c1 at level 99, c2 at level 200,
   format "'[v' 'do'  x  <-  c1  ;;  '/' c2 ']'") : py_scope.
Notation "'do_' c1 ;; c2" := (bind c1 (λ _, c2))
  (at level 10, c1 at level 99, c2 at level 200,
   format "'[v' 'do_'  c1  ;;  '/' c2 ']'") : py_scope.
Local Open Scope py_scope.

(** an exception raised by the interpreter or handed up by a library *)
Definition throw {A} (e : exn) : M A := λ st, (inl e, st).

Definition emit (ev : event) : M unit :=
  λ st, (inr tt, State (heap st) (trace st ++ [ev])).

(** a [raise] statement of the script *)
Definition raise {A} (e : exn) : M A := do_ emit (Raised e) ;; throw e.

Definition lift {A} (r : exn + A) : M A :=
  match r with inl e => throw e | inr x => ret x end.

Definition lift_unit (r : option exn) : M unit :=
  match r with Some e => throw e | None => ret tt end.

(** a new array object *)
Definition alloc (a : ndarray) : M loc :=
  λ st, (inr (length (heap st)), State (heap st ++ [a]) (trace st)).

(** the array a reference points to; Python has no dangling reference, the
    error case is there to keep the function total *)
Definition deref (l : loc) : M ndarray :=
  λ st, match heap st !! l with
        | Some a => (inr a, st)
        | None => (inl (Exn SystemError "dangling reference"), st)
        end.

(** ** numpy *)

Definition of_nat (i : nat) : float := of_uint63 (Uint63.of_Z (Z.of_nat i)).

(** [a.shape[0]] *)
Definition shape0 (l : loc) : M nat :=
  do a <- deref l ;;
  match nd_shape a with
  | n :: _ => ret n
  | [] => throw (Exn IndexError "tuple index out of range")
  end.

(** [len(a)] *)
Definition len (l : loc) : M nat :=
  do a <- deref l ;;
  match nd_shape a with
  | n :: _ => ret n
  | [] => throw (Exn TypeError "len() of unsized object")
  end.

(** [np.resize(a, new_size)]: a new one-dimensional array *)
Definition resize_array (a : ndarray) (new_size : nat) : ndarray :=
  NdArray (nd_dtype a) [new_size] (resize_data 0%float (nd_data a) new_size) None.

Definition np_resize (l : loc) (new_size : nat) : M loc :=
  do a <- deref l ;; alloc (resize_array a new_size).

(** [a.astype(np.float64)]: a copy with the element type changed; every
    element type here converts to a double without loss *)
Definition as_float64 (a : ndarray) : ndarray :=
  NdArray Float64 (nd_shape a) (nd_data a) (nd_mask a).

Definition astype_float64 (l : loc) : M loc :=
  do a <- deref l ;; alloc (as_float64 a).

(** [np.arange(n)] *)
Definition np_arange (n : nat) : M loc :=
  alloc (NdArray Int64 [n] (of_nat <$> seq 0 n) None).

(** [a * c] and [a / c] for a Python float [c]: a new [Float64] array *)
Definition mul_scalar (l : loc) (c : float) : M loc :=
  do a <- deref l ;;
  alloc (NdArray Float64 (nd_shape a) ((λ x, x * c)%float <$> nd_data a) (nd_mask a)).

Definition div_scalar (l : loc) (c : float) : M loc :=
  do a <- deref l ;;
  alloc (NdArray Float64 (nd_shape a) ((λ x, x / c)%float <$> nd_data a) (nd_mask a)).

(** [a == c]: a new [Bool] array *)
Definition eq_scalar (l : loc) (c : float) : M loc :=
  do a <- deref l ;;
  alloc (NdArray Bool (nd_shape a)
           ((λ x, if (x =? c)%float then 1 else 0)%float <$> nd_data a) (nd_mask a)).

Definition shape_eqb (s1 s2 : list nat) : bool :=
  bool_decide (s1 = s2).

(** [np.ma.masked_where(condition, a)]: a masked copy of [a], masked where
    the condition holds (and where [a] was masked already) *)
Definition masked_where (condition a : loc) : M loc :=
  do c <- deref condition ;;
  do x <- deref a ;;
  if shape_eqb (nd_shape c) (nd_shape x) then
    let m := (λ v, negb (v =? 0)%float) <$> nd_data c in
    alloc (NdArray (nd_dtype x) (nd_shape x) (nd_data x)
             (Some (match nd_mask x with
                    | Some m0 => zip_with orb m0 m
                    | None => m
                    end)))
  else throw (Exn IndexError
                "Inconsistent shape between the condition and the input").

(** ** The script *)

Definition print (s : string) : M unit := emit (Print s).

Section Script.
Variable ext : externals.

(** *** Calls into the libraries: the arguments are read from the store,
    the call is logged, its result is a new object. *)

Definition librosa_load_call (file_path : string) (sr : Z) (mono : bool)
  : M (loc * Z) :=
  do_ emit (LibrosaLoad file_path sr mono) ;;
  do (y, sr') <- lift (librosa_load ext file_path sr mono) ;;
  do y <- alloc y ;;
  ret (y, sr').

Definition pw_dio_call (y : loc) (sr : Z) (frame_period : float)
  : M (loc * loc) :=
  do y <- deref y ;;
  do_ emit (PwDio y sr frame_period) ;;
  do (f0, t) <- lift (pw_dio ext y sr frame_period) ;;
  do f0 <- alloc f0 ;;
  do t <- alloc t ;;
  ret (f0, t).

Definition pw_stonemask_call (y f0 t : loc) (sr : Z) : M loc :=
  do y <- deref y ;;
  do f0 <- deref f0 ;;
  do t <- deref t ;;
  do_ emit (PwStonemask y f0 t sr) ;;
  do r <- lift (pw_stonemask ext y f0 t sr) ;;
  alloc r.

Definition pw_cheaptrick_call (y f0 t : loc) (sr : Z) : M loc :=
  do y <- deref y ;;
  do f0 <- deref f0 ;;
  do t <- deref t ;;
  do_ emit (PwCheaptrick y f0 t sr) ;;
  do r <- lift (pw_cheaptrick ext y f0 t sr) ;;
  alloc r.

Definition pw_d4c_call (y f0 t : loc) (sr : Z) : M loc :=
  do y <- deref y ;;
  do f0 <- deref f0 ;;
  do t <- deref t ;;
  do_ emit (PwD4c y f0 t sr) ;;
  do r <- lift (pw_d4c ext y f0 t sr) ;;
  alloc r.

Definition pw_synthesize_call (f0 sp ap : loc) (sr : Z) (frame_period : float)
  : M loc :=
  do f0 <- deref f0 ;;
  do sp <- deref sp ;;
  do ap <- deref ap ;;
  do_ emit (PwSynthesize f0 sp ap sr frame_period) ;;
  do r <- lift (pw_synthesize ext f0 sp ap sr frame_period) ;;
  alloc r.

Definition sf_write_call (file : string) (y : loc) (sr : Z) : M unit :=
  do y <- deref y ;;
  do_ emit (SfWrite file y sr) ;;
  lift_unit (sf_write ext file y sr).

Definition plt_plot_call (x y : loc) (label color : string)
    (linestyle : option string) (linewidth : Z) : M unit :=
  do x <- deref x ;;
  do y <- deref y ;;
  do_ emit (PltPlot x y label color linestyle linewidth) ;;
  lift_unit (plt_plot ext x y label color linestyle linewidth).

Definition plt_savefig_call (save_path : string) : M unit :=
  do_ emit (PltSavefig save_path) ;;
  lift_unit (plt_savefig ext save_path).

(** *** The functions of [emotional_prosody_transfer.py] *)

(** the default of the parameter [target_sr] *)
Definition default_target_sr : Z := 22050.

Definition load_and_preprocess_audio (file_path : string) (target_sr : Z)
  : M (loc * Z) :=
  do (y, sr) <- librosa_load_call file_path target_sr true ;;
  do y <- astype_float64 y ;;
  ret (y, sr).

Definition analyze_speech (y : loc) (sr : Z) (frame_period : float)
  : M (loc * loc * loc) :=
  do (f0, t) <- pw_dio_call y sr frame_period ;;
  do f0 <- pw_stonemask_call y f0 t sr ;;
  do sp <- pw_cheaptrick_call y f0 t sr ;;
  do ap <- pw_d4c_call y f0 t sr ;;
  ret (f0, sp, ap).

Definition transfer_prosody (f0_source sp_target ap_target : loc)
  : M (loc * loc * loc) :=
  do num_frames_target <- shape0 sp_target ;;
  do f0_aligned <- np_resize f0_source num_frames_target ;;
  ret (f0_aligned, sp_target, ap_target).

Definition synthesize_speech (f0 sp ap : loc) (sr : Z) (frame_period : float)
  : M loc :=
  do y_synthesized <- pw_synthesize_call f0 sp ap sr frame_period ;;
  ret y_synthesized.

(** [np.arange(len(f0)) * frame_period / 1000.0] *)
Definition time_axis (f0 : loc) (frame_period : float) : M loc :=
  do n <- len f0 ;;
  do r <- np_arange n ;;
  do r <- mul_scalar r frame_period ;;
  div_scalar r 1000%float.

(** [np.ma.masked_where(f0 == 0, f0)] *)
Definition mask_unvoiced (f0 : loc) : M loc :=
  do c <- eq_scalar f0 0%float ;;
  masked_where c f0.

Definition plot_f0_contours (f0_emo f0_neu f0_conv : loc) (sr : Z)
    (frame_period : float) (save_path : string) : M unit :=
  do_ emit (PltFigure 12 6) ;;
  do time_axis_emo <- time_axis f0_emo frame_period ;;
  do time_axis_neu <- time_axis f0_neu frame_period ;;
  do time_axis_conv <- time_axis f0_conv frame_period ;;
  do m <- mask_unvoiced f0_neu ;;
  do_ plt_plot_call time_axis_neu m "Original Neutral F0" "blue" None 2 ;;
  do m <- mask_unvoiced f0_emo ;;
  do_ plt_plot_call time_axis_emo m "Original Emotional F0" "red" (Some "--"%string) 2 ;;
  do m <- mask_unvoiced f0_conv ;;
  do_ plt_plot_call time_axis_conv m "Converted F0" "green" (Some ":"%string) 3 ;;
  do_ emit (PltTitle "Fundamental Frequency ($F_0$) Contour Comparison") ;;
  do_ emit (PltXlabel "Time (s)") ;;
  do_ emit (PltYlabel "Frequency (Hz)") ;;
  do_ emit PltLegend ;;
  do_ emit (PltGrid true) ;;
  do_ plt_savefig_call save_path ;;
  do_ emit PltClose ;;
  print (String.append "F0 plot saved to " save_path).

Definition sample_rate_error : exn :=
  Exn ValueError "Sampling rates of the two files must be the same.".

(** [if plot_file:] — [None] and the empty string are false *)
Definition truthy (plot_file : option string) : bool :=
  match plot_file with
  | Some s => negb (String.eqb s "")
  | None => false
  end.

(** [main], as the file's second definition of it (the one in force when
    the script runs; the first is the same text) *)
Definition main (emotional_file neutral_file output_file : string)
    (plot_file : option string) : M unit :=
  do_ print "Loading and preprocessing audio files..." ;;
  do (y_emo, sr_emo) <- load_and_preprocess_audio emotional_file default_target_sr ;;
  do (y_neu, sr_neu) <- load_and_preprocess_audio neutral_file default_target_sr ;;
  if negb (sr_emo =? sr_neu)%Z then raise sample_rate_error else
  let sr := sr_emo in
  let frame_period := 5%float in
  do_ print "Analyzing speech signals using WORLD vocoder..." ;;
  do (f0_emo, sp_emo, ap_emo) <- analyze_speech y_emo sr frame_period ;;
  do (f0_neu, sp_neu, ap_neu) <- analyze_speech y_neu sr frame_period ;;
  do_ print "Transferring prosody..." ;;
  do (f0_conv, sp_conv, ap_conv) <- transfer_prosody f0_emo sp_neu ap_neu ;;
  do_ print "Synthesizing converted speech..." ;;
  do y_conv <- synthesize_speech f0_conv sp_conv ap_conv sr frame_period ;;
  do_ print (String.append "Saving converted audio to "
               (String.append output_file "...")) ;;
  do_ sf_write_call output_file y_conv sr ;;
  do_ (if truthy plot_file then
         do_ print "Generating F0 contour plot for validation..." ;;
         plot_f0_contours f0_emo f0_neu f0_conv sr frame_period
           (default ""%string plot_file)
       else ret tt) ;;
  print "Process completed successfully.".
End Script.

(** ** Specifications *)

(** [wp m P Q st]: run from [st], the computation [m] only adds objects to
    the store and events to the log, every event it adds satisfies [P], and
    when it returns a value [x] in the state [st'], [Q x st'] holds. *)
Definition wp {A} (m : M A) (P : event → Prop) (Q : A → state → Prop)
    (st : state) : Prop :=
  ∃ objs evs,
    heap (m st).2 = heap st ++ objs ∧
    trace (m st).2 = trace st ++ evs ∧
    Forall P evs ∧
    ∀ x, (m st).1 = inr x → Q x (m st).2.

(** the store of [st'] is the store of [st] with new objects *)
Definition extends (st st' : state) : Prop :=
  ∃ objs, heap st' = heap st ++ objs.

(** the x axis the plotter computes from a contour of [n] frames *)
Definition time_axis_array (n : nat) (frame_period : float) : ndarray :=
  NdArray Float64 [n]
    ((λ x, x / 1000)%float <$> ((λ x, x * frame_period)%float <$> (of_nat <$> seq 0 n)))
    None.

(** what a run hands to [sf.write] *)
Definition audio_output (tr : list event) : list (string * ndarray * Z) :=
  omap (λ ev, match ev with
              | SfWrite file y sr => Some (file, y, sr)
              | _ => None
              end) tr.

Definition is_analysis (ev : event) : bool :=
  match ev with
  | PwDio _ _ _ | PwStonemask _ _ _ _ | PwCheaptrick _ _ _ _ | PwD4c _ _ _ _ => true
  | _ => false
  end.

Definition is_synthesis (ev : event) : bool :=
  match ev with PwSynthesize _ _ _ _ _ => true | _ => false end.

Definition is_write (ev : event) : bool :=
  match ev with SfWrite _ _ _ | PltSavefig _ => true | _ => false end.

(** the configuration an event was issued with, where it carries one: the
    rate asked of the loader, the frame period given to the analyser and to
    the synthesiser, the frame period behind the x axis of a plotted line *)
Definition fixed_config (ev : event) : Prop :=
  match ev with
  | LibrosaLoad _ sr _ => sr = 22050%Z
  | PwDio _ _ frame_period => frame_period = 5%float
  | PwSynthesize _ _ _ _ frame_period => frame_period = 5%float
  | PltPlot x _ _ _ _ _ => ∃ n, x = time_axis_array n 5%float
  | _ => True
  end.

(** what the plotter may do outside: matplotlib calls and a message, each
    line drawn against a time axis computed from [frame_period] *)
Definition plot_event (frame_period : float) (ev : event) : Prop :=
  match ev with
  | PltPlot x _ _ _ _ _ => ∃ n, x = time_axis_array n frame_period
  | Print _ | PltFigure _ _ | PltTitle _ | PltXlabel _ | PltYlabel _
  | PltLegend | PltGrid _ | PltSavefig _ | PltClose => True
  | _ => False
  end.

(** librosa reports different rates for the two input files *)
Definition mismatch (ext : externals) (emotional_file neutral_file : string)
  : Prop :=
  ∃ y1 sr1 y2 sr2,
    librosa_load ext emotional_file 22050 true = inr (y1, sr1) ∧
    librosa_load ext neutral_file 22050 true = inr (y2, sr2) ∧
    sr1 ≠ sr2.

(** what a run of [main] may do outside: calls with the fixed
    configuration, and no [raise] but that of the sample-rate check, and
    that only when the rates differ *)
Definition main_event (ext : externals) (emotional_file neutral_file : string)
    (ev : event) : Prop :=
  fixed_config ev ∧
  ∀ e, ev = Raised e →
       e = sample_rate_error ∧ mismatch ext emotional_file neutral_file.


Definition returns_requested_rate (ext : externals) : Prop :=
  ∀ file_path sr mono y sr',
    librosa_load ext file_path sr mono = inr (y, sr') → sr' = sr.

(** ** Test doubles for the libraries *)

Module Stub.
(** three samples for the emotional recording, five for any other *)
Definition samples (file_path : string) : ndarray :=
  if String.eqb file_path "emotion.wav"
  then NdArray Float32 [3] [0.5; 0.25; 0.125]%float None
  else NdArray Float32 [5] [0.5; 0.5; 0.25; 0.25; 0.125]%float None.

Definition native_rate (file_path : string) : Z :=
  if String.eqb file_path "emotion.wav" then 16000%Z else 22050%Z.

(** a loader that resamples to the rate it is asked for *)
Definition resampling_load (file_path : string) (sr : Z) (mono : bool)
  : exn + (ndarray * Z) :=
  if String.eqb file_path "missing.wav"
  then inl (Exn IOError "No such file or directory: 'missing.wav'")
  else inr (samples file_path, sr).

(** a loader that hands back each file at its own rate *)
Definition native_load (file_path : string) (sr : Z) (mono : bool)
  : exn + (ndarray * Z) :=
  inr (samples file_path, native_rate file_path).

(** one frame per sample *)
Definition dio (y : ndarray) (sr : Z) (frame_period : float)
  : exn + (ndarray * ndarray) :=
  let n := length (nd_data y) in
  inr (NdArray Float64 [n] ((λ x, if (x <? 0.1875)%float then 0 else x * 400)%float <$> nd_data y) None,
       NdArray Float64 [n] ((λ i, of_nat i * frame_period / 1000)%float <$> seq 0 n) None).

Definition stonemask (y f0 t : ndarray) (sr : Z) : exn + ndarray := inr f0.

Definition cheaptrick (y f0 t : ndarray) (sr : Z) : exn + ndarray :=
  let n := length (nd_data f0) in
  inr (NdArray Float64 [n; 2] (replicate (n * 2) 1%float) None).

Definition d4c (y f0 t : ndarray) (sr : Z) : exn + ndarray :=
  let n := length (nd_data f0) in
  inr (NdArray Float64 [n; 2] (replicate (n * 2) 0.5%float) None).

Definition synthesize (f0 sp ap : ndarray) (sr : Z) (frame_period : float)
  : exn + ndarray :=
  inr (NdArray Float64 [length (nd_data f0)] (nd_data f0) None).

(** a plotter that, as matplotlib does, refuses data of more than two
    dimensions *)
Definition plot (x y : ndarray) (label color : string)
    (linestyle : option string) (linewidth : Z) : option exn :=
  if (2 <? length (nd_shape x)) || (2 <? length (nd_shape y))
  then Some (Exn ValueError "x and y can be no greater than 2D")
  else None.

Definition world (load : string → Z → bool → exn + (ndarray * Z)) : externals :=
  Externals load dio stonemask cheaptrick d4c synthesize
    (λ _ _ _, None) (λ _, None) plot.

Definition empty : state := State [] [].

(** a store with a contour of three frames at 0, an envelope of five
    frames at 1, an aperiodicity of five frames at 2 and an empty contour
    at 3 *)
Definition contour : ndarray :=
  NdArray Float64 [3] [200; 0; 100]%float None.
Definition envelope : ndarray :=
  NdArray Float64 [5; 2] (replicate 10 1%float) None.
Definition aperiodicity : ndarray :=
  NdArray Float64 [5; 2] (replicate 10 0.5%float) None.
Definition no_contour : ndarray := NdArray Float64 [0] [] None.
(** an envelope of six frames, at 4 *)
Definition envelope6 : ndarray :=
  NdArray Float64 [6; 2] (replicate 12 1%float) None.
Definition analysed : state :=
  State [contour; envelope; aperiodicity; no_contour; envelope6] [].
End Stub.

(** ** Successful runs *)

(** the arrays the plotter builds on the way to a time axis and to a masked
    contour *)
Definition arange_array (n : nat) : ndarray :=
  NdArray Int64 [n] (of_nat <$> seq 0 n) None.

Definition frame_offsets (n : nat) (frame_period : float) : ndarray :=
  NdArray Float64 [n] ((λ x, x * frame_period)%float <$> (of_nat <$> seq 0 n)) None.

Definition is_zero_array (a : ndarray) : ndarray :=
  NdArray Bool (nd_shape a)
    ((λ x, if (x =? 0)%float then 1 else 0)%float <$> nd_data a) (nd_mask a).

Definition masked_unvoiced (a : ndarray) : ndarray :=
  let m := (λ v, negb (v =? 0)%float) <$> nd_data (is_zero_array a) in
  NdArray (nd_dtype a) (nd_shape a) (nd_data a)
    (Some (match nd_mask a with
           | Some m0 => zip_with orb m0 m
           | None => m
           end)).

Definition is_plt (ev : event) : bool :=
  match ev with
  | PltFigure _ _ | PltPlot _ _ _ _ _ _ | PltTitle _ | PltXlabel _
  | PltYlabel _ | PltLegend | PltGrid _ | PltSavefig _ | PltClose => true
  | _ => false
  end.

(** what librosa and pyworld answered for one recording *)
Record analysis := Analysis {
  an_decoded : ndarray;
  an_raw : ndarray;
  an_times : ndarray;
  an_f0 : ndarray;
  an_sp : ndarray;
  an_ap : ndarray
}.

(** the waveform [main] analyses: the decoded one as [float64] *)
Definition an_wave (a : analysis) : ndarray := as_float64 (an_decoded a).

(** [a] is what the libraries answer when [main] loads [file_path] and
    analyses it at the rate [sr] *)
Definition analysed (ext : externals) (file_path : string) (sr : Z)
    (a : analysis) : Prop :=
  librosa_load ext file_path 22050 true = inr (an_decoded a, sr) ∧
  pw_dio ext (an_wave a) sr 5 = inr (an_raw a, an_times a) ∧
  pw_stonemask ext (an_wave a) (an_raw a) (an_times a) sr = inr (an_f0 a) ∧
  pw_cheaptrick ext (an_wave a) (an_f0 a) (an_times a) sr = inr (an_sp a) ∧
  pw_d4c ext (an_wave a) (an_f0 a) (an_times a) sr = inr (an_ap a).

Definition analysis_events (sr : Z) (a : analysis) : list event :=
  [PwDio (an_wave a) sr 5;
   PwStonemask (an_wave a) (an_raw a) (an_times a) sr;
   PwCheaptrick (an_wave a) (an_f0 a) (an_times a) sr;
   PwD4c (an_wave a) (an_f0 a) (an_times a) sr].

(** the store and the log of [main] once both recordings are analysed and
    the emotional contour is aligned to the [n] frames of the neutral
    envelope *)
Definition aligned_heap (h : list ndarray) (emo neu : analysis) (n : nat)
  : list ndarray :=
  h ++ [an_decoded emo; an_wave emo; an_decoded neu; an_wave neu;
        an_raw emo; an_times emo; an_f0 emo; an_sp emo; an_ap emo;
        an_raw neu; an_times neu; an_f0 neu; an_sp neu; an_ap neu;
        resize_array (an_f0 emo) n].

Definition aligned_trace (tr : list event) (emotional_file neutral_file : string)
    (sr : Z) (emo neu : analysis) : list event :=
  tr ++ [Print "Loading and preprocessing audio files...";
         LibrosaLoad emotional_file 22050 true;
         LibrosaLoad neutral_file 22050 true;
         Print "Analyzing speech signals using WORLD vocoder..."]
     ++ analysis_events sr emo ++ analysis_events sr neu
     ++ [Print "Transferring prosody..."].

Definition synthesis_events (sr : Z) (emo neu : analysis) (n : nat)
  : list event :=
  [Print "Synthesizing converted speech...";
   PwSynthesize (resize_array (an_f0 emo) n) (an_sp neu) (an_ap neu) sr 5].

Definition write_events (output_file : string) (y_conv : ndarray) (sr : Z)
  : list event :=
  [Print (String.append "Saving converted audio to "
            (String.append output_file "..."));
   SfWrite output_file y_conv sr].

(** what a successful call of [plot_f0_contours] logs *)
Definition plot_events (emo neu conv : ndarray) (n_emo n_neu n_conv : nat)
    (frame_period : float) (save_path : string) : list event :=
  [PltFigure 12 6;
   PltPlot (time_axis_array n_neu frame_period) (masked_unvoiced neu)
     "Original Neutral F0" "blue" None 2;
   PltPlot (time_axis_array n_emo frame_period) (masked_unvoiced emo)
     "Original Emotional F0" "red" (Some "--"%string) 2;
   PltPlot (time_axis_array n_conv frame_period) (masked_unvoiced conv)
     "Converted F0" "green" (Some ":"%string) 3;
   PltTitle "Fundamental Frequency ($F_0$) Contour Comparison";
   PltXlabel "Time (s)";
   PltYlabel "Frequency (Hz)";
   PltLegend;
   PltGrid true;
   PltSavefig save_path].

(** matplotlib accepts the three lines of the plotter *)
Definition lines_accepted (ext : externals) (emo neu conv : ndarray)
    (n_emo n_neu n_conv : nat) (frame_period : float) : Prop :=
  plt_plot ext (time_axis_array n_neu frame_period) (masked_unvoiced neu)
    "Original Neutral F0" "blue" None 2 = None ∧
  plt_plot ext (time_axis_array n_emo frame_period) (masked_unvoiced emo)
    "Original Emotional F0" "red" (Some "--"%string) 2 = None ∧
  plt_plot ext (time_axis_array n_conv frame_period) (masked_unvoiced conv)
    "Converted F0" "green" (Some ":"%string) 3 = None.

(** the arrays it leaves in the store *)
Definition time_axis_objects (n : nat) (frame_period : float) : list ndarray :=
  [arange_array n; frame_offsets n frame_period; time_axis_array n frame_period].

Definition mask_objects (a : ndarray) : list ndarray :=
  [is_zero_array a; masked_unvoiced a].

Definition plot_objects (emo neu conv : ndarray) (n_emo n_neu n_conv : nat)
    (frame_period : float) : list ndarray :=
  time_axis_objects n_emo frame_period ++ time_axis_objects n_neu frame_period
  ++ time_axis_objects n_conv frame_period
  ++ mask_objects neu ++ mask_objects emo ++ mask_objects conv.

(** libraries that fail where a test needs them to *)
Module Faulty.
Definition disk_full : exn := Exn IOError "No space left on device".
Definition no_pitch : exn := Exn RuntimeError "dio failed".

(** the analyser fails at its first step *)
Definition deaf : externals :=
  Externals Stub.resampling_load (λ _ _ _, inl no_pitch) Stub.stonemask
    Stub.cheaptrick Stub.d4c Stub.synthesize (λ _ _ _, None) (λ _, None)
    Stub.plot.

(** the synthesiser fails *)
Definition mute : externals :=
  Externals Stub.resampling_load Stub.dio Stub.stonemask Stub.cheaptrick
    Stub.d4c (λ _ _ _ _ _, inl no_pitch) (λ _ _ _, None) (λ _, None)
    Stub.plot.

(** the audio file cannot be written *)
Definition read_only : externals :=
  Externals Stub.resampling_load Stub.dio Stub.stonemask Stub.cheaptrick
    Stub.d4c Stub.synthesize (λ _ _ _, Some disk_full) (λ _, None)
    Stub.plot.

(** the figure cannot be saved *)
Definition no_figure : externals :=
  Externals Stub.resampling_load Stub.dio Stub.stonemask Stub.cheaptrick
    Stub.d4c Stub.synthesize (λ _ _ _, None) (λ _, Some disk_full)
    Stub.plot.



End Faulty.

(** a store with a contour of three frames at 0, envelopes of five and of
    three frames at 1 and 2, a zero-dimensional array at 3 and a decoded
    waveform at 4 *)
Module Cases.
Definition envelope3 : ndarray :=
  NdArray Float64 [3; 2] (replicate 6 1%float) None.
Definition scalar : ndarray := NdArray Float64 [] [100%float] None.
Definition wave : ndarray := as_float64 (Stub.samples "emotion.wav").
Definition store : state :=
  State [Stub.contour; Stub.envelope; envelope3; scalar; wave] [].
(** a contour of three dimensions, alone in a store *)
Definition cube : ndarray :=
  NdArray Float64 [2; 2; 2] (replicate 8 100%float) None.
Definition cube_store : state := State [cube] [].
End Cases.

(** what the test doubles answer for the two recordings of the script *)
Module Answers.
Definition of_file (file_path : string) : analysis :=
  let decoded := Stub.samples file_path in
  let wave := as_float64 decoded in
  let n := length (nd_data wave) in
  let f0 := NdArray Float64 [n]
              ((λ x, if (x <? 0.1875)%float then 0 else x * 400)%float
                 <$> nd_data wave) None in
  Analysis decoded f0
    (NdArray Float64 [n] ((λ i, of_nat i * 5 / 1000)%float <$> seq 0 n) None)
    f0
    (NdArray Float64 [n; 2] (replicate (n * 2) 1%float) None)
    (NdArray Float64 [n; 2] (replicate (n * 2) 0.5%float) None).

Definition emo : analysis := of_file "emotion.wav".
Definition neu : analysis := of_file "neutral.wav".
Definition y_conv : ndarray :=
  NdArray Float64 [5] [200; 100; 0; 200; 100]%float None.
End Answers.

(** ** Theorems *)

Section ResizeFacts.
Context {A : Type}.
Variable zero : A.
Implicit Types (a : list A) (n i k : nat).

Lemma length_tile k a : length (tile k a) = k * length a.
Proof.
  induction k as [|k IH]; simpl; [done|].
  rewrite length_app, IH. lia.
Qed.

Lemma lookup_tile k a i :
  i < k * length a → tile k a !! i = a !! (i mod length a).
Proof.
  revert i. induction k as [|k IH]; intros i Hi; simpl in *; [lia|].
  destruct (decide (i < length a)) as [Hlt|Hge].
  - rewrite lookup_app_l by done. by rewrite Nat.mod_small.
  - rewrite lookup_app_r by lia. rewrite IH by lia.
    f_equal. symmetry.
    replace i with ((i - length a) + 1 * length a) at 1 by lia.
    apply Nat.Div0.mod_add.
Qed.

Lemma ceil_div_covers n size : 0 < size → n ≤ ceil_div n size * size.
Proof.
  intros Hs. unfold ceil_div.
  pose proof (Z.mul_div_le (- Z.of_nat n) (Z.of_nat size)) as Hle.
  assert (0 ≤ - (- Z.of_nat n / Z.of_nat size))%Z as Hnn.
  { assert (- Z.of_nat n / Z.of_nat size ≤ 0)%Z; [|lia].
    apply Z.div_le_upper_bound; lia. }
  nia.
Qed.


Lemma length_resize_data a n : length (resize_data zero a n) = n.
Proof.
  unfold resize_data. destruct (_ || _) eqn:E.
  - apply length_replicate.
  - apply orb_false_iff in E as [Ha Hn].
    apply Nat.eqb_neq in Ha.
    rewrite length_take, length_tile.
    pose proof (ceil_div_covers n (length a)). lia.
Qed.

Lemma lookup_resize_data a n i :
  0 < length a → i < n → resize_data zero a n !! i = a !! (i mod length a).
Proof.
  intros Ha Hi. unfold resize_data.
  replace (length a =? 0) with false by (symmetry; apply Nat.eqb_neq; lia).
  replace (n =? 0) with false by (symmetry; apply Nat.eqb_neq; lia).
  simpl. rewrite lookup_take_lt by done.
  apply lookup_tile.
  pose proof (ceil_div_covers n (length a)). lia.
Qed.


Lemma resize_data_empty n : resize_data zero [] n = replicate n zero.
Proof. done. Qed.

Lemma elem_of_tile k a x : x ∈ tile k a → x ∈ a.
Proof.
  induction k as [|k IH]; simpl; [by intros ?%elem_of_nil|].
  intros [?|?]%elem_of_app; auto.
Qed.

Lemma elem_of_resize_data a n x :
  x ∈ resize_data zero a n → x ∈ a ∨ (a = [] ∧ x = zero).
Proof.
  unfold resize_data. destruct (length a =? 0) eqn:Ha; simpl.
  - intros [-> _]%elem_of_replicate. apply Nat.eqb_eq in Ha.
    right. split; [|done]. by destruct a.
  - destruct (n =? 0) eqn:Hn.
    + apply Nat.eqb_eq in Hn as ->. by intros ?%elem_of_nil.
    + intros (j & Hj & _)%elem_of_take. left.
      eapply elem_of_tile, list_elem_of_lookup_2, Hj.
Qed.
End ResizeFacts.


(** *** The calculus of [wp] *)

Section WpRules.
Context {A B : Type}.
Implicit Types (P : event → Prop) (st : state).

Lemma wp_ret (x : A) P (Q : A → state → Prop) st :
  Q x st → wp (ret x) P Q st.
Proof.
  intros HQ. exists [], []. simpl. rewrite !app_nil_r.
  repeat split; [constructor|]. by intros ? [= <-].
Qed.

Lemma wp_throw (e : exn) P (Q : A → state → Prop) st :
  wp (throw e) P Q st.
Proof.
  exists [], []. simpl. rewrite !app_nil_r.
  repeat split; [constructor|]. by intros ? [=].
Qed.

Lemma wp_lift (r : exn + A) P (Q : A → state → Prop) st :
  (∀ x, r = inr x → Q x st) → wp (lift r) P Q st.
Proof. destruct r; intros HQ; [apply wp_throw|apply wp_ret; auto]. Qed.

Lemma wp_bind (m : M A) (k : A → M B) P (Q : B → state → Prop) st :
  wp m P (λ x st', wp (k x) P Q st') st → wp (bind m k) P Q st.
Proof.
  unfold wp, bind. intros (objs & evs & Hh & Ht & HP & HQ).
  destruct (m st) as [[e|x] st1]; simpl in *.
  - exists objs, evs. by repeat split.
  - destruct (HQ x eq_refl) as (objs' & evs' & Hh' & Ht' & HP' & HQ').
    exists (objs ++ objs'), (evs ++ evs').
    rewrite Hh', Ht', Hh, Ht, !app_assoc.
    repeat split; [by apply Forall_app|done].
Qed.

Lemma wp_mono (m : M A) P (Q Q' : A → state → Prop) st :
  wp m P Q st →
  (∀ x st', extends st st' → Q x st' → Q' x st') →
  wp m P Q' st.
Proof.
  intros (objs & evs & Hh & Ht & HP & HQ) Himp.
  exists objs, evs. repeat split; [done..|].
  intros x Hx. apply Himp; [by exists objs|auto].
Qed.
End WpRules.

Section WpPrimitives.
Implicit Types (P : event → Prop) (st : state).

Lemma wp_emit ev P (Q : unit → state → Prop) st :
  P ev → Q tt (State (heap st) (trace st ++ [ev])) → wp (emit ev) P Q st.
Proof.
  intros HP HQ. exists [], [ev]. simpl. rewrite app_nil_r.
  repeat split; [by repeat constructor|]. by intros [] _.
Qed.

Lemma wp_raise {A} e P (Q : A → state → Prop) st :
  P (Raised e) → wp (raise e) P Q st.
Proof.
  intros HP. apply wp_bind, wp_emit; [done|]. apply wp_throw.
Qed.

Lemma wp_lift_unit r P (Q : unit → state → Prop) st :
  (r = None → Q tt st) → wp (lift_unit r) P Q st.
Proof. destruct r; intros HQ; [apply wp_throw|apply wp_ret; auto]. Qed.

Lemma wp_alloc a P (Q : loc → state → Prop) st :
  Q (length (heap st)) (State (heap st ++ [a]) (trace st)) →
  wp (alloc a) P Q st.
Proof.
  intros HQ. exists [a], []. simpl. rewrite app_nil_r.
  repeat split; [constructor|]. by intros ? [= <-].
Qed.

Lemma wp_deref l P (Q : ndarray → state → Prop) st :
  (∀ a, heap st !! l = Some a → Q a st) → wp (deref l) P Q st.
Proof.
  intros HQ. unfold wp, deref. exists [], [].
  destruct (heap st !! l) as [a|]; simpl; rewrite !app_nil_r;
    (repeat split; [constructor|]); [|done].
  intros ? [= <-]. auto.
Qed.
End WpPrimitives.

Ltac wp_step :=
  lazymatch goal with
  | |- wp (bind _ _) _ _ _ => apply wp_bind
  | |- wp (ret _) _ _ _ => apply wp_ret
  | |- wp (throw _) _ _ _ => apply wp_throw
  | |- wp (raise _) _ _ _ => apply wp_raise
  | |- wp (emit _) _ _ _ => apply wp_emit
  | |- wp (print _) _ _ _ => apply wp_emit
  | |- wp (lift _) _ _ _ => apply wp_lift; intros ? ?
  | |- wp (lift_unit _) _ _ _ => apply wp_lift_unit; intros ?
  | |- wp (alloc _) _ _ _ => apply wp_alloc
  | |- wp (deref _) _ _ _ => apply wp_deref; intros ? ?
  | |- wp (match ?x with _ => _ end) _ _ _ => destruct x eqn:?
  end.

(** *** What the store looks like after a call *)

Lemma lookup_alloc {A} (h : list A) (a : A) : (h ++ [a]) !! length h = Some a.
Proof. by apply list_lookup_middle. Qed.

Lemma transfer_prosody_run st f0_source sp_target ap_target src env n dims :
  heap st !! f0_source = Some src →
  heap st !! sp_target = Some env →
  nd_shape env = n :: dims →
  transfer_prosody f0_source sp_target ap_target st =
    (inr (length (heap st), sp_target, ap_target),
     State (heap st ++ [resize_array src n]) (trace st)).
Proof.
  intros Hsrc Henv Hshape.
  unfold transfer_prosody, shape0, np_resize, bind, deref, alloc, ret.
  rewrite Henv, Hshape. simpl. by rewrite Hsrc.
Qed.

Section LoadFacts.
Variable ext : externals.

Lemma load_and_preprocess_audio_ok st file_path target_sr y sr :
  librosa_load ext file_path target_sr true = inr (y, sr) →
  load_and_preprocess_audio ext file_path target_sr st =
    (inr (S (length (heap st)), sr),
     State (heap st ++ [y; as_float64 y])
           (trace st ++ [LibrosaLoad file_path target_sr true])).
Proof.
  intros Hload.
  unfold load_and_preprocess_audio, librosa_load_call, astype_float64,
    bind, emit, lift, deref, alloc, ret.
  rewrite Hload. simpl. rewrite lookup_alloc. simpl.
  rewrite length_app, <- app_assoc. simpl. by rewrite Nat.add_1_r.
Qed.

Lemma load_and_preprocess_audio_fail st file_path target_sr e :
  librosa_load ext file_path target_sr true = inl e →
  load_and_preprocess_audio ext file_path target_sr st =
    (inl e, State (heap st) (trace st ++ [LibrosaLoad file_path target_sr true])).
Proof.
  intros Hload.
  unfold load_and_preprocess_audio, librosa_load_call, bind, emit, lift, throw.
  by rewrite Hload.
Qed.
End LoadFacts.

(** ** Prosody transfer *)

Example transfer_prosody_repeats_short_contour :
  let r := transfer_prosody 0 1 2 Stub.analysed in
  r.1 = inr (5, 1, 2) ∧
  nd_data <$> heap r.2 !! 5 = Some [200; 0; 100; 200; 0]%float.
Proof. by vm_compute. Qed.

Example transfer_prosody_truncates_long_contour :
  let f0 := NdArray Float64 [4] [200; 0; 100; 150]%float None in
  let sp := NdArray Float64 [3; 1] [1; 1; 1]%float None in
  let r := transfer_prosody 0 1 1 (State [f0; sp] []) in
  nd_data <$> heap r.2 !! 2 = Some [200; 0; 100]%float.
Proof. by vm_compute. Qed.

(** C1: when the source contour has [L > 0] values and the target envelope
    has [n] frames, [transfer_prosody] returns a contour whose element [i],
    for every [i < n], is element [i mod L] of the source; so a source that
    is long enough is cut to its first [n] values. *)
Theorem transfer_prosody_cyclic st f0_source sp_target ap_target src env n dims :
  heap st !! f0_source = Some src →
  heap st !! sp_target = Some env →
  nd_shape env = n :: dims →
  0 < length (nd_data src) →
  ∃ f0_aligned st' aligned,
    transfer_prosody f0_source sp_target ap_target st
      = (inr (f0_aligned, sp_target, ap_target), st') ∧
    heap st' !! f0_aligned = Some aligned ∧
    (∀ i, i < n →
       nd_data aligned !! i = nd_data src !! (i mod length (nd_data src))) ∧
    (n ≤ length (nd_data src) → nd_data aligned = take n (nd_data src)).
Proof.
  intros Hsrc Henv Hshape HL.
  eexists _, _, _. split; [by eapply transfer_prosody_run|].
  split; [apply lookup_alloc|]. simpl. split.
  - intros i Hi. by apply lookup_resize_data.
  - intros Hn. apply list_eq. intros i.
    destruct (decide (i < n)) as [Hi|Hi].
    + rewrite lookup_resize_data, lookup_take_lt by done.
      by rewrite Nat.mod_small by lia.
    + rewrite lookup_take_ge by lia.
      apply lookup_ge_None. rewrite length_resize_data. lia.
Qed.

Lemma transfer_prosody_cyclic_witness :
  (heap Stub.analysed !! 0 = Some Stub.contour ∧
   heap Stub.analysed !! 1 = Some Stub.envelope ∧
   nd_shape Stub.envelope = [5; 2] ∧
   0 < length (nd_data Stub.contour)) ∧
  ∃ f0_aligned st' aligned,
    transfer_prosody 0 1 2 Stub.analysed = (inr (f0_aligned, 1, 2), st') ∧
    heap st' !! f0_aligned = Some aligned ∧
    (∀ i, i < 5 → nd_data aligned !! i = nd_data Stub.contour !! (i mod 3)) ∧
    (5 ≤ 3 → nd_data aligned = take 5 (nd_data Stub.contour)).
Proof.
  assert (0 < length (nd_data Stub.contour)) as HL by (simpl; lia).
  split; [by repeat split|].
  exact (transfer_prosody_cyclic Stub.analysed 0 1 2 Stub.contour Stub.envelope
           5 [2] eq_refl eq_refl eq_refl HL).
Defined.

(** C2: whatever the length of the source contour, shorter or longer than
    the target's frame count [n], the contour [transfer_prosody] returns is
    one-dimensional with exactly [n] values. *)
Theorem transfer_prosody_length st f0_source sp_target ap_target src env n dims :
  heap st !! f0_source = Some src →
  heap st !! sp_target = Some env →
  nd_shape env = n :: dims →
  ∃ f0_aligned st' aligned,
    transfer_prosody f0_source sp_target ap_target st
      = (inr (f0_aligned, sp_target, ap_target), st') ∧
    heap st' !! f0_aligned = Some aligned ∧
    nd_shape aligned = [n] ∧
    length (nd_data aligned) = n.
Proof.
  intros Hsrc Henv Hshape.
  eexists _, _, _. split; [by eapply transfer_prosody_run|].
  split; [apply lookup_alloc|]. simpl.
  split; [done|apply length_resize_data].
Qed.

Lemma transfer_prosody_length_witness :
  (heap Stub.analysed !! 0 = Some Stub.contour ∧
   heap Stub.analysed !! 1 = Some Stub.envelope ∧
   nd_shape Stub.envelope = [5; 2]) ∧
  ∃ f0_aligned st' aligned,
    transfer_prosody 0 1 2 Stub.analysed = (inr (f0_aligned, 1, 2), st') ∧
    heap st' !! f0_aligned = Some aligned ∧
    nd_shape aligned = [5] ∧
    length (nd_data aligned) = 5.
Proof.
  split; [by repeat split|].
  exact (transfer_prosody_length Stub.analysed 0 1 2 Stub.contour Stub.envelope
           5 [2] eq_refl eq_refl eq_refl).
Defined.



(** C4: [transfer_prosody] hands back the very envelope and aperiodicity it
    was given, and leaves every array of the store, theirs included, as it
    was; it calls nothing outside.  The contour it returns has the source's
    element type and holds nothing but values of the source (or zeros, when
    the source has no value at all): no value is scaled or normalised. *)
Theorem transfer_prosody_frame st f0_source sp_target ap_target src env n dims :
  heap st !! f0_source = Some src →
  heap st !! sp_target = Some env →
  nd_shape env = n :: dims →
  ∃ f0_aligned st' aligned,
    transfer_prosody f0_source sp_target ap_target st
      = (inr (f0_aligned, sp_target, ap_target), st') ∧
    (∀ l a, heap st !! l = Some a → heap st' !! l = Some a) ∧
    trace st' = trace st ∧
    heap st' !! f0_aligned = Some aligned ∧
    nd_dtype aligned = nd_dtype src ∧
    ∀ x, x ∈ nd_data aligned →
         x ∈ nd_data src ∨ (nd_data src = [] ∧ x = 0%float).
Proof.
  intros Hsrc Henv Hshape.
  eexists _, _, _. split; [by eapply transfer_prosody_run|]. simpl.
  split; [intros l a Hl; by apply lookup_app_l_Some|].
  split; [done|]. split; [apply lookup_alloc|]. simpl.
  split; [done|]. intros x. apply elem_of_resize_data.
Qed.

Lemma transfer_prosody_frame_witness :
  (heap Stub.analysed !! 0 = Some Stub.contour ∧
   heap Stub.analysed !! 1 = Some Stub.envelope ∧
   nd_shape Stub.envelope = [5; 2]) ∧
  ∃ f0_aligned st' aligned,
    transfer_prosody 0 1 2 Stub.analysed = (inr (f0_aligned, 1, 2), st') ∧
    (∀ l a, heap Stub.analysed !! l = Some a → heap st' !! l = Some a) ∧
    trace st' = trace Stub.analysed ∧
    heap st' !! f0_aligned = Some aligned ∧
    nd_dtype aligned = nd_dtype Stub.contour ∧
    ∀ x, x ∈ nd_data aligned →
         x ∈ nd_data Stub.contour ∨ (nd_data Stub.contour = [] ∧ x = 0%float).
Proof.
  split; [by repeat split|].
  exact (transfer_prosody_frame Stub.analysed 0 1 2 Stub.contour Stub.envelope
           5 [2] eq_refl eq_refl eq_refl).
Defined.

(** C9: when the source contour has no value and the target has [n > 0]
    frames, [transfer_prosody] does not fail: it returns a contour of [n]
    values, all of them zero. *)
Theorem transfer_prosody_empty_source st f0_source sp_target ap_target src env n dims :
  heap st !! f0_source = Some src →
  heap st !! sp_target = Some env →
  nd_shape env = n :: dims →
  length (nd_data src) = 0 →
  0 < n →
  ∃ f0_aligned st' aligned,
    transfer_prosody f0_source sp_target ap_target st
      = (inr (f0_aligned, sp_target, ap_target), st') ∧
    heap st' !! f0_aligned = Some aligned ∧
    nd_shape aligned = [n] ∧
    nd_data aligned = replicate n 0%float.
Proof.
  intros Hsrc Henv Hshape HL Hn.
  eexists _, _, _. split; [by eapply transfer_prosody_run|].
  split; [apply lookup_alloc|]. simpl. split; [done|].
  apply nil_length_inv in HL. rewrite HL. apply resize_data_empty.
Qed.

Lemma transfer_prosody_empty_source_witness :
  (heap Stub.analysed !! 3 = Some Stub.no_contour ∧
   heap Stub.analysed !! 1 = Some Stub.envelope ∧
   nd_shape Stub.envelope = [5; 2] ∧
   length (nd_data Stub.no_contour) = 0 ∧
   0 < 5) ∧
  ∃ f0_aligned st' aligned,
    transfer_prosody 3 1 2 Stub.analysed = (inr (f0_aligned, 1, 2), st') ∧
    heap st' !! f0_aligned = Some aligned ∧
    nd_shape aligned = [5] ∧
    nd_data aligned = replicate 5 0%float.
Proof.
  assert (0 < 5) as Hn by lia.
  split; [by repeat split|].
  exact (transfer_prosody_empty_source Stub.analysed 3 1 2 Stub.no_contour
           Stub.envelope 5 [2] eq_refl eq_refl eq_refl eq_refl Hn).
Defined.

(** *** The plotter *)

Lemma lookup_extends {A} (h h' : list A) l a :
  (∃ objs, h' = h ++ objs) → h !! l = Some a → h' !! l = Some a.
Proof. intros [objs ->] Hl. by apply lookup_app_l_Some. Qed.

Ltac wp_run :=
  repeat (wp_step; cbv beta; cbn [heap trace];
          repeat match goal with
            | H : heap (State _ _) !! _ = _ |- _ => cbn [heap] in H
            | H : (?h ++ [_]) !! length ?h = Some _ |- _ =>
                rewrite lookup_alloc in H; injection H as <-
            end).

Lemma wp_time_axis f0 frame_period P st :
  wp (time_axis f0 frame_period) P
     (λ l st', ∃ n, heap st' !! l = Some (time_axis_array n frame_period)) st.
Proof.
  unfold time_axis, len, np_arange, mul_scalar, div_scalar. wp_run.
  eexists. apply lookup_alloc.
Qed.

Lemma wp_mask_unvoiced f0 P st :
  wp (mask_unvoiced f0) P (λ _ _, True) st.
Proof. unfold mask_unvoiced, eq_scalar, masked_where. by wp_run. Qed.

Lemma wp_plt_plot_call ext x y label color linestyle linewidth P
    (Q : unit → state → Prop) st :
  (∀ ax ay, heap st !! x = Some ax →
            P (PltPlot ax ay label color linestyle linewidth)) →
  (∀ tr, Q tt (State (heap st) tr)) →
  wp (plt_plot_call ext x y label color linestyle linewidth) P Q st.
Proof. intros HP HQ. unfold plt_plot_call. wp_run; auto. Qed.

(** after a call that only extended the store, what was known of the store
    before still holds *)
Ltac persist Hext :=
  unfold extends in Hext; cbn [heap] in Hext;
  repeat match goal with
    | H : ?h !! _ = Some _ |- _ =>
        lazymatch type of Hext with
        | ∃ objs, _ = h ++ objs => apply (lookup_extends _ _ _ _ Hext) in H
        end
    end.

Ltac wp_call lem :=
  apply wp_bind; eapply wp_mono; [apply lem|];
  let Hext := fresh "Hext" in
  let HQ := fresh "HQ" in
  intros ? ? Hext HQ; cbv beta in HQ |- *; persist Hext; clear Hext;
  lazymatch type of HQ with
  | ex _ => destruct HQ as [? HQ]
  | _ => clear HQ
  end.

Ltac wp_plot :=
  apply wp_bind, wp_plt_plot_call;
  [ let H := fresh in
    intros ? ? H; simpl; unfold loc in *;
    match goal with
    | H' : ?l = Some (time_axis_array _ _) |- _ =>
        rewrite H' in H; injection H as <-; eauto
    end
  | intros; cbn [heap] ].

Lemma wp_plot_f0_contours ext f0_emo f0_neu f0_conv sr frame_period save_path st :
  wp (plot_f0_contours ext f0_emo f0_neu f0_conv sr frame_period save_path)
     (plot_event frame_period) (λ _ _, True) st.
Proof.
  unfold plot_f0_contours, plt_savefig_call.
  apply wp_bind, wp_emit; [done|]. cbn [heap].
  wp_call wp_time_axis. wp_call wp_time_axis. wp_call wp_time_axis.
  wp_call wp_mask_unvoiced.
  wp_plot.
  wp_call wp_mask_unvoiced.
  wp_plot.
  wp_call wp_mask_unvoiced.
  wp_plot.
  by wp_run.
Qed.

(** *** The orchestrator *)

Lemma wp_weaken_events {A} (m : M A) (P P' : event → Prop) Q st :
  (∀ ev, P ev → P' ev) → wp m P Q st → wp m P' Q st.
Proof.
  intros HP (objs & evs & Hh & Ht & Hevs & HQ).
  exists objs, evs. repeat split; [done..| |done].
  by eapply Forall_impl.
Qed.

Lemma plot_event_main_event ext emotional_file neutral_file ev :
  plot_event 5 ev → main_event ext emotional_file neutral_file ev.
Proof. destruct ev; simpl; try done; intros H; by split. Qed.

Lemma wp_main ext emotional_file neutral_file output_file plot_file st :
  wp (main ext emotional_file neutral_file output_file plot_file)
     (main_event ext emotional_file neutral_file) (λ _ _, True) st.
Proof.
  unfold main, load_and_preprocess_audio, librosa_load_call, astype_float64,
    analyze_speech, pw_dio_call, pw_stonemask_call, pw_cheaptrick_call,
    pw_d4c_call, transfer_prosody, shape0, np_resize, synthesize_speech,
    pw_synthesize_call, sf_write_call, default_target_sr.
  wp_run.
  all: try (split; [by simpl|by intros ? [=]]).
  all: try done.
  - split; [done|]. intros e [= <-]. split; [done|].
    apply negb_true_iff, Z.eqb_neq in Heqb. by eexists _, _, _, _.
  - eapply wp_weaken_events; [apply plot_event_main_event|].
    eapply wp_mono; [apply wp_plot_f0_contours|].
    intros _ st' _ _. by wp_run.
Qed.

Lemma wp_trace {A} (m : M A) P Q st :
  wp m P Q st → ∃ evs, trace (m st).2 = trace st ++ evs ∧ Forall P evs.
Proof. intros (objs & evs & _ & Ht & HP & _). by exists evs. Qed.

Lemma wp_heap {A} (m : M A) P Q st l a :
  wp m P Q st → heap st !! l = Some a → heap (m st).2 !! l = Some a.
Proof.
  intros (objs & evs & Hh & _) Hl. rewrite Hh. by apply lookup_app_l_Some.
Qed.

Lemma audio_output_silent evs :
  Forall (λ ev, ∀ file y sr, ev ≠ SfWrite file y sr) evs →
  audio_output evs = [].
Proof.
  induction 1 as [|ev evs Hev _ IH]; [done|].
  destruct ev; try exact IH. by destruct (Hev file y sr).
Qed.

Lemma wp_audio_silent {A} (m : M A) P Q st :
  (∀ ev, P ev → ∀ file y sr, ev ≠ SfWrite file y sr) →
  wp m P Q st →
  audio_output (trace (m st).2) = audio_output (trace st).
Proof.
  intros HP (evs & -> & Hevs)%wp_trace.
  assert (audio_output (trace st ++ evs)
          = audio_output (trace st) ++ audio_output evs) as ->
    by apply omap_app.
  rewrite (audio_output_silent evs); [by rewrite app_nil_r|].
  eapply Forall_impl; [exact Hevs|exact HP].
Qed.

Lemma audio_bind_cong {A B} (m : M A) (k1 k2 : A → M B) st :
  (∀ x st', audio_output (trace (k1 x st').2) = audio_output (trace (k2 x st').2)) →
  audio_output (trace (bind m k1 st).2) = audio_output (trace (bind m k2 st).2).
Proof. intros Hk. unfold bind. by destruct (m st) as [[e|x] st']. Qed.

Lemma plot_event_not_write frame_period ev :
  plot_event frame_period ev → ∀ file y sr, ev ≠ SfWrite file y sr.
Proof. by destruct ev. Qed.

Lemma main_audio_without_plot ext emotional_file neutral_file output_file plot_file st :
  audio_output (trace (main ext emotional_file neutral_file output_file plot_file st).2)
  = audio_output (trace (main ext emotional_file neutral_file output_file None st).2).
Proof.
  unfold main.
  apply audio_bind_cong; intros _ ?.
  apply audio_bind_cong; intros [y_emo sr_emo] ?.
  apply audio_bind_cong; intros [y_neu sr_neu] ?.
  destruct (negb _); [done|]. cbv zeta.
  apply audio_bind_cong; intros _ ?.
  apply audio_bind_cong; intros [[f0_emo sp_emo] ap_emo] ?.
  apply audio_bind_cong; intros [[f0_neu sp_neu] ap_neu] ?.
  apply audio_bind_cong; intros _ ?.
  apply audio_bind_cong; intros [[f0_conv sp_conv] ap_conv] ?.
  apply audio_bind_cong; intros _ ?.
  apply audio_bind_cong; intros y_conv ?.
  apply audio_bind_cong; intros _ ?.
  apply audio_bind_cong; intros _ written.
  transitivity (audio_output (trace written)); [|symmetry].
  - apply (wp_audio_silent _ (plot_event 5) (λ _ _, True));
      [apply plot_event_not_write|].
    apply wp_bind. destruct (truthy plot_file).
    + apply wp_bind, wp_emit; [done|].
      eapply wp_mono; [apply wp_plot_f0_contours|].
      intros _ ? _ _. by wp_run.
    + by wp_run.
  - apply (wp_audio_silent _ (plot_event 5) (λ _ _, True));
      [apply plot_event_not_write|].
    simpl. by wp_run.
Qed.

Lemma bind_ok {A B} (m : M A) (k : A → M B) st x st' :
  m st = (inr x, st') → bind m k st = k x st'.
Proof. unfold bind. by intros ->. Qed.

Lemma Raised_not_in_main_trace ext emotional_file neutral_file evs :
  Forall (main_event ext emotional_file neutral_file) evs →
  ∀ e, Raised e ∈ evs →
       e = sample_rate_error ∧ mismatch ext emotional_file neutral_file.
Proof.
  intros Hevs e He. rewrite Forall_forall in Hevs.
  destruct (Hevs _ He) as [_ Hraise]. by apply Hraise.
Qed.

(** C5: when librosa reports different rates for the two files, [main]
    fails with the [ValueError] of its sample-rate check, having done
    nothing but print its first message and load the two files: no
    analysis, no synthesis, nothing written.  And in any run the only
    [raise] statement [main] executes is that of the sample-rate check, and
    it does so only when the two rates differ. *)
Theorem main_sample_rate_check ext emotional_file neutral_file output_file plot_file st :
  (∀ y1 sr1 y2 sr2,
     librosa_load ext emotional_file default_target_sr true = inr (y1, sr1) →
     librosa_load ext neutral_file default_target_sr true = inr (y2, sr2) →
     sr1 ≠ sr2 →
     ∃ st' evs,
       main ext emotional_file neutral_file output_file plot_file st
         = (inl (Exn ValueError "Sampling rates of the two files must be the same."),
            st') ∧
       trace st' = trace st ++ evs ∧
       evs = [Print "Loading and preprocessing audio files...";
              LibrosaLoad emotional_file 22050 true;
              LibrosaLoad neutral_file 22050 true;
              Raised sample_rate_error] ∧
       Forall (λ ev, is_analysis ev = false ∧ is_synthesis ev = false
                     ∧ is_write ev = false) evs) ∧
  (∃ evs,
     trace (main ext emotional_file neutral_file output_file plot_file st).2
       = trace st ++ evs ∧
     ∀ e, Raised e ∈ evs →
          e = sample_rate_error ∧ mismatch ext emotional_file neutral_file).
Proof.
  split.
  - intros y1 sr1 y2 sr2 H1 H2 Hne. eexists _, _.
    split; [|split; [|split; [reflexivity|by repeat constructor]]].
    + unfold main.
      erewrite bind_ok by reflexivity. cbv beta.
      erewrite bind_ok by (by apply load_and_preprocess_audio_ok). cbv beta iota.
      erewrite bind_ok by (by apply load_and_preprocess_audio_ok). cbv beta iota.
      apply Z.eqb_neq in Hne. rewrite Hne. reflexivity.
    + simpl. by rewrite <- !app_assoc.
  - destruct (wp_trace _ _ _ _
                (wp_main ext emotional_file neutral_file output_file plot_file st))
      as (evs & Ht & Hevs).
    exists evs. split; [done|]. by apply Raised_not_in_main_trace.
Qed.

Lemma main_sample_rate_check_witness :
  (librosa_load (Stub.world Stub.native_load) "emotion.wav" default_target_sr true
     = inr (Stub.samples "emotion.wav", 16000%Z) ∧
   librosa_load (Stub.world Stub.native_load) "neutral.wav" default_target_sr true
     = inr (Stub.samples "neutral.wav", 22050%Z) ∧
   16000%Z ≠ 22050%Z) ∧
  ∃ st' evs,
    main (Stub.world Stub.native_load) "emotion.wav" "neutral.wav"
         "converted.wav" (Some "f0_comparison.png"%string) Stub.empty
      = (inl (Exn ValueError "Sampling rates of the two files must be the same."),
         st') ∧
    trace st' = trace Stub.empty ++ evs ∧
    evs = [Print "Loading and preprocessing audio files...";
           LibrosaLoad "emotion.wav" 22050 true;
           LibrosaLoad "neutral.wav" 22050 true;
           Raised sample_rate_error] ∧
    Forall (λ ev, is_analysis ev = false ∧ is_synthesis ev = false
                  ∧ is_write ev = false) evs.
Proof.
  assert (16000%Z ≠ 22050%Z) as Hne by done.
  split; [by repeat split|].
  exact (proj1 (main_sample_rate_check (Stub.world Stub.native_load)
                  "emotion.wav" "neutral.wav" "converted.wav"
                  (Some "f0_comparison.png"%string) Stub.empty)
           _ _ _ _ eq_refl eq_refl Hne).
Defined.

(** ** The loader *)


Lemma stub_returns_requested_rate :
  returns_requested_rate (Stub.world Stub.resampling_load).
Proof.
  intros p sr mono y sr'. simpl. unfold Stub.resampling_load.
  case_match; by intros [=].
Qed.






Example load_missing_file :
  (load_and_preprocess_audio (Stub.world Stub.resampling_load)
     "missing.wav" 22050 Stub.empty).1
  = inl (Exn IOError "No such file or directory: 'missing.wav'").
Proof. reflexivity. Qed.

(** ** The plotter and the configuration *)

(** C7: [plot_f0_contours] changes no array of the store: whatever a
    reference denoted before the call, the three contours among them, it
    denotes after it; the call hands nothing to [sf.write]; and a run of
    [main] writes the same audio whether or not a plot is asked for. *)
Theorem plot_f0_contours_no_mutation ext f0_emo f0_neu f0_conv sr frame_period
    save_path st emotional_file neutral_file output_file plot_file st0 :
  (∀ l a,
     heap st !! l = Some a →
     heap (plot_f0_contours ext f0_emo f0_neu f0_conv sr frame_period save_path st).2
       !! l = Some a) ∧
  audio_output
    (trace (plot_f0_contours ext f0_emo f0_neu f0_conv sr frame_period save_path st).2)
    = audio_output (trace st) ∧
  audio_output
    (trace (main ext emotional_file neutral_file output_file plot_file st0).2)
    = audio_output
        (trace (main ext emotional_file neutral_file output_file None st0).2).
Proof.
  pose proof (wp_plot_f0_contours ext f0_emo f0_neu f0_conv sr frame_period
                save_path st) as Hwp.
  split; [|split].
  - intros l a Hl. by eapply wp_heap.
  - eapply wp_audio_silent; [apply plot_event_not_write|exact Hwp].
  - apply main_audio_without_plot.
Qed.

Example plot_leaves_contours :
  let st := Stub.analysed in
  let st' := (plot_f0_contours (Stub.world Stub.resampling_load)
                0 0 0 22050 5 "f0_comparison.png" st).2 in
  take 5 (heap st') = heap st ∧ length (heap st') = 20.
Proof. vm_compute. split; reflexivity. Qed.

Example main_configuration_in_a_run :
  let tr := trace (main (Stub.world Stub.resampling_load) "emotion.wav"
                     "neutral.wav" "converted.wav"
                     (Some "f0_comparison.png"%string) Stub.empty).2 in
  tr !! 1 = Some (LibrosaLoad "emotion.wav" 22050 true) ∧
  tr !! 2 = Some (LibrosaLoad "neutral.wav" 22050 true) ∧
  tr !! 4 = Some (PwDio (as_float64 (Stub.samples "emotion.wav")) 22050 5) ∧
  length tr = 31.
Proof. vm_compute. repeat split; reflexivity. Qed.

(** C10: when librosa returns the rate it is asked for, both loads of
    [main], which ask for 22050 Hz, report 22050 Hz, so the two rates are
    equal; and no run of [main] executes the [raise] of the sample-rate
    check. *)
Theorem main_sample_rate_check_unreachable ext emotional_file neutral_file
    output_file plot_file st :
  returns_requested_rate ext →
  (∀ st1 st2 y_emo sr_emo st1' y_neu sr_neu st2',
     load_and_preprocess_audio ext emotional_file default_target_sr st1
       = (inr (y_emo, sr_emo), st1') →
     load_and_preprocess_audio ext neutral_file default_target_sr st2
       = (inr (y_neu, sr_neu), st2') →
     sr_emo = 22050%Z ∧ sr_neu = 22050%Z ∧ sr_emo = sr_neu) ∧
  ∃ evs,
    trace (main ext emotional_file neutral_file output_file plot_file st).2
      = trace st ++ evs ∧
    ∀ e, Raised e ∉ evs.
Proof.
  intros Hrate. split.
  - assert (∀ file_path st1 y sr st1',
              load_and_preprocess_audio ext file_path default_target_sr st1
                = (inr (y, sr), st1') → sr = 22050%Z) as Hload.
    { intros file_path st1 y sr st1'.
      destruct (librosa_load ext file_path default_target_sr true)
        as [e|[decoded sr0]] eqn:Hl.
      - by rewrite (load_and_preprocess_audio_fail _ _ _ _ _ Hl).
      - rewrite (load_and_preprocess_audio_ok _ _ _ _ _ _ Hl).
        intros [= _ <- _]. by eapply Hrate. }
    intros st1 st2 y_emo sr_emo st1' y_neu sr_neu st2' H1 H2.
    apply Hload in H1, H2. by subst.
  - destruct (wp_trace _ _ _ _
                (wp_main ext emotional_file neutral_file output_file plot_file st))
      as (evs & Ht & Hevs).
    exists evs. split; [done|]. intros e He.
    destruct (Raised_not_in_main_trace _ _ _ _ Hevs e He)
      as (_ & y1 & sr1 & y2 & sr2 & H1 & H2 & Hne).
    apply Hrate in H1, H2. by subst.
Qed.

Lemma main_sample_rate_check_unreachable_witness :
  returns_requested_rate (Stub.world Stub.resampling_load) ∧
  (∀ st1 st2 y_emo sr_emo st1' y_neu sr_neu st2',
     load_and_preprocess_audio (Stub.world Stub.resampling_load) "emotion.wav"
       default_target_sr st1 = (inr (y_emo, sr_emo), st1') →
     load_and_preprocess_audio (Stub.world Stub.resampling_load) "neutral.wav"
       default_target_sr st2 = (inr (y_neu, sr_neu), st2') →
     sr_emo = 22050%Z ∧ sr_neu = 22050%Z ∧ sr_emo = sr_neu) ∧
  ∃ evs,
    trace (main (Stub.world Stub.resampling_load) "emotion.wav" "neutral.wav"
             "converted.wav" (Some "f0_comparison.png"%string) Stub.empty).2
      = trace Stub.empty ++ evs ∧
    ∀ e, Raised e ∉ evs.
Proof.
  split; [exact stub_returns_requested_rate|].
  exact (main_sample_rate_check_unreachable (Stub.world Stub.resampling_load)
           "emotion.wav" "neutral.wav" "converted.wav"
           (Some "f0_comparison.png"%string) Stub.empty
           stub_returns_requested_rate).
Defined.

(** ** Runs in which the libraries answer *)

Lemma deref_ok l st a : heap st !! l = Some a → deref l st = (inr a, st).
Proof. unfold deref. by intros ->. Qed.

Lemma lift_ok {A} (r : exn + A) x st : r = inr x → lift r st = (inr x, st).
Proof. by intros ->. Qed.

Lemma lift_unit_ok r st : r = None → lift_unit r st = (inr tt, st).
Proof. by intros ->. Qed.

Lemma bind_fail {A B} (m : M A) (k : A → M B) st e st' :
  m st = (inl e, st') → bind m k st = (inl e, st').
Proof. unfold bind. by intros ->. Qed.

Lemma lift_fail {A} (r : exn + A) e st : r = inl e → lift r st = (inl e, st).
Proof. by intros ->. Qed.

Lemma lift_unit_fail r e st : r = Some e → lift_unit r st = (inl e, st).
Proof. by intros ->. Qed.

(** a reference denotes what it was allocated with, or what it denoted
    before the latest allocations *)
Lemma lookup_app_plus {A} (h k : list A) j :
  (h ++ k) !! (length h + j) = k !! j.
Proof. rewrite lookup_app_r by lia. f_equal. lia. Qed.

Ltac solve_lookup :=
  cbn [heap];
  first [ eassumption
        | apply lookup_alloc
        | etrans; [apply lookup_app_plus|]; reflexivity
        | apply lookup_app_l_Some; solve_lookup ].

(** one statement of a run: [bind m k st] goes on as [k x st'] *)
Ltac run_with tac :=
  etrans; [eapply bind_ok; tac|]; cbv beta iota; cbn [heap trace].

(** [m st = (inr _, _)] for a computation [m] made of statements that
    succeed *)
Ltac run_side :=
  lazymatch goal with
  | |- bind _ _ _ = _ =>
      etrans; [eapply bind_ok; run_side|]; cbv beta iota; cbn [heap trace];
      run_side
  | |- deref _ _ = _ => apply deref_ok; solve_lookup
  | |- lift _ _ = _ => apply lift_ok; eassumption
  | |- lift_unit _ _ = _ => apply lift_unit_ok; eassumption
  | |- _ => reflexivity
  end.

Ltac run_step :=
  etrans; [eapply bind_ok; run_side|]; cbv beta iota; cbn [heap trace].

Ltac run := repeat run_step.

Section AnalysisRuns.
Variable ext : externals.

Lemma analyze_speech_run st y sr frame_period wave f0_raw t f0 sp ap :
  heap st !! y = Some wave →
  pw_dio ext wave sr frame_period = inr (f0_raw, t) →
  pw_stonemask ext wave f0_raw t sr = inr f0 →
  pw_cheaptrick ext wave f0 t sr = inr sp →
  pw_d4c ext wave f0 t sr = inr ap →
  analyze_speech ext y sr frame_period st =
    (inr (length (heap st) + 2, length (heap st) + 3, length (heap st) + 4),
     State (heap st ++ [f0_raw; t; f0; sp; ap])
           (trace st ++ [PwDio wave sr frame_period;
                         PwStonemask wave f0_raw t sr;
                         PwCheaptrick wave f0 t sr;
                         PwD4c wave f0 t sr])).
Proof.
  intros Hy Hdio Hstone Hct Hd4c.
  unfold analyze_speech, pw_dio_call, pw_stonemask_call, pw_cheaptrick_call,
    pw_d4c_call.
  run. unfold ret. rewrite !length_app, <- !app_assoc. simpl.
  by rewrite <- !Nat.add_assoc.
Qed.

Lemma synthesize_speech_run st f0 sp ap sr frame_period a_f0 a_sp a_ap y :
  heap st !! f0 = Some a_f0 →
  heap st !! sp = Some a_sp →
  heap st !! ap = Some a_ap →
  pw_synthesize ext a_f0 a_sp a_ap sr frame_period = inr y →
  synthesize_speech ext f0 sp ap sr frame_period st =
    (inr (length (heap st)),
     State (heap st ++ [y])
           (trace st ++ [PwSynthesize a_f0 a_sp a_ap sr frame_period])).
Proof.
  intros Hf0 Hsp Hap Hsyn. unfold synthesize_speech, pw_synthesize_call.
  by run.
Qed.

Lemma sf_write_call_run st file y sr wave :
  heap st !! y = Some wave →
  sf_write ext file wave sr = None →
  sf_write_call ext file y sr st =
    (inr tt, State (heap st) (trace st ++ [SfWrite file wave sr])).
Proof.
  intros Hy Hw. unfold sf_write_call. run. by apply lift_unit_ok.
Qed.
End AnalysisRuns.

(** *** The plotter, step by step *)

Lemma len_ok st l a n dims :
  heap st !! l = Some a → nd_shape a = n :: dims → len l st = (inr n, st).
Proof.
  intros Hl Hshape. unfold len. run_step. by rewrite Hshape.
Qed.

Lemma len_scalar st l a :
  heap st !! l = Some a → nd_shape a = [] →
  len l st = (inl (Exn TypeError "len() of unsized object"), st).
Proof.
  intros Hl Hshape. unfold len. run_step. by rewrite Hshape.
Qed.

Lemma time_axis_run st f0 frame_period a n dims :
  heap st !! f0 = Some a →
  nd_shape a = n :: dims →
  time_axis f0 frame_period st =
    (inr (length (heap st) + 2),
     State (heap st ++ time_axis_objects n frame_period) (trace st)).
Proof.
  intros Hf0 Hshape. unfold time_axis, np_arange, mul_scalar, div_scalar.
  run_with ltac:(by eapply len_ok). run.
  unfold alloc. cbn [heap trace].
  rewrite !length_app, <- !app_assoc, <- Nat.add_assoc. reflexivity.
Qed.

Lemma mask_unvoiced_run st f0 a :
  heap st !! f0 = Some a →
  mask_unvoiced f0 st =
    (inr (length (heap st) + 1),
     State (heap st ++ mask_objects a) (trace st)).
Proof.
  intros Hf0. unfold mask_unvoiced, eq_scalar, masked_where. run.
  unfold shape_eqb. rewrite bool_decide_eq_true_2 by done.
  unfold alloc. cbn [heap trace].
  rewrite !length_app, <- !app_assoc. reflexivity.
Qed.

Lemma plt_plot_call_run ext st x y label color linestyle linewidth ax ay :
  heap st !! x = Some ax →
  heap st !! y = Some ay →
  plt_plot ext ax ay label color linestyle linewidth = None →
  plt_plot_call ext x y label color linestyle linewidth st =
    (inr tt,
     State (heap st)
           (trace st ++ [PltPlot ax ay label color linestyle linewidth])).
Proof.
  intros Hx Hy Hplot. unfold plt_plot_call. run. by apply lift_unit_ok.
Qed.

Lemma plt_plot_call_fail ext st x y label color linestyle linewidth ax ay e :
  heap st !! x = Some ax →
  heap st !! y = Some ay →
  plt_plot ext ax ay label color linestyle linewidth = Some e →
  plt_plot_call ext x y label color linestyle linewidth st =
    (inl e,
     State (heap st)
           (trace st ++ [PltPlot ax ay label color linestyle linewidth])).
Proof.
  intros Hx Hy Hplot. unfold plt_plot_call. run. by apply lift_unit_fail.
Qed.

Lemma bind_assoc {A B C} (m : M A) (f : A → M B) (g : B → M C) st :
  bind (bind m f) g st = bind m (λ x, bind (f x) g) st.
Proof. unfold bind. by destruct (m st) as [[e|x] st']. Qed.

Section PlotRuns.
Variable ext : externals.
Variables (f0_emo f0_neu f0_conv : loc) (sr : Z) (frame_period : float).
Variable save_path : string.
Variables (emo neu conv : ndarray) (n_emo n_neu n_conv : nat).
Variables (d_emo d_neu d_conv : list nat).

(** the plotter up to the call of [plt.savefig], that call left out *)
Lemma plot_f0_contours_draws st :
  heap st !! f0_emo = Some emo → nd_shape emo = n_emo :: d_emo →
  heap st !! f0_neu = Some neu → nd_shape neu = n_neu :: d_neu →
  heap st !! f0_conv = Some conv → nd_shape conv = n_conv :: d_conv →
  lines_accepted ext emo neu conv n_emo n_neu n_conv frame_period →
  plot_f0_contours ext f0_emo f0_neu f0_conv sr frame_period save_path st =
    (do_ lift_unit (plt_savefig ext save_path) ;;
     do_ emit PltClose ;;
     print (String.append "F0 plot saved to " save_path))
      (State (heap st ++ plot_objects emo neu conv n_emo n_neu n_conv frame_period)
             (trace st ++ plot_events emo neu conv n_emo n_neu n_conv
                            frame_period save_path)).
Proof.
  intros He Hse Hn Hsn Hc Hsc (Hline_neu & Hline_emo & Hline_conv).
  unfold plot_f0_contours, plt_savefig_call.
  run_step.
  run_with ltac:(eapply time_axis_run; [solve_lookup|eassumption]).
  run_with ltac:(eapply time_axis_run; [solve_lookup|eassumption]).
  run_with ltac:(eapply time_axis_run; [solve_lookup|eassumption]).
  run_with ltac:(eapply mask_unvoiced_run; solve_lookup).
  run_with ltac:(eapply plt_plot_call_run; [solve_lookup..|eassumption]).
  run_with ltac:(eapply mask_unvoiced_run; solve_lookup).
  run_with ltac:(eapply plt_plot_call_run; [solve_lookup..|eassumption]).
  run_with ltac:(eapply mask_unvoiced_run; solve_lookup).
  run_with ltac:(eapply plt_plot_call_run; [solve_lookup..|eassumption]).
  do 5 run_step. rewrite bind_assoc. run_step.
  unfold plot_objects, plot_events. by rewrite <- !app_assoc.
Qed.
End PlotRuns.

(** *** [main], step by step *)

Lemma load_and_preprocess_audio_run ext st file_path target_sr y sr :
  librosa_load ext file_path target_sr true = inr (y, sr) →
  load_and_preprocess_audio ext file_path target_sr st =
    (inr (length (heap st) + 1, sr),
     State (heap st ++ [y; as_float64 y])
           (trace st ++ [LibrosaLoad file_path target_sr true])).
Proof.
  intros Hload. rewrite (load_and_preprocess_audio_ok _ _ _ _ _ _ Hload).
  by rewrite Nat.add_1_r.
Qed.

(** [main] from its first statement to the aligned contour *)
Ltac main_aligns Hemo Hneu :=
  let Hl := fresh "Hload" in
  let Hl' := fresh "Hload" in
  destruct Hemo as (Hl & ? & ? & ? & ?);
  destruct Hneu as (Hl' & ? & ? & ? & ?);
  unfold an_wave in *; unfold main;
  run_step;
  run_with ltac:(eapply load_and_preprocess_audio_run; exact Hl);
  run_with ltac:(eapply load_and_preprocess_audio_run; exact Hl');
  rewrite Z.eqb_refl; cbn [negb]; cbv zeta;
  run_step;
  run_with ltac:(eapply analyze_speech_run; [solve_lookup|eassumption..]);
  run_with ltac:(eapply analyze_speech_run; [solve_lookup|eassumption..]);
  run_step;
  run_with ltac:(eapply transfer_prosody_run; [solve_lookup..|eassumption]).

Ltac main_state :=
  unfold aligned_heap, aligned_trace, analysis_events, synthesis_events,
    write_events, an_wave, print, emit, throw, ret;
  cbn [heap trace]; rewrite <- ?app_assoc; reflexivity.

Section MainRuns.
Variable ext : externals.
Variables (emotional_file neutral_file output_file : string).
Variables (sr : Z) (n : nat) (dims : list nat) (emo neu : analysis).
Hypothesis Hemo : analysed ext emotional_file sr emo.
Hypothesis Hneu : analysed ext neutral_file sr neu.
Hypothesis Hframes : nd_shape (an_sp neu) = n :: dims.

Lemma main_run_without_plot st plot_file y_conv :
  pw_synthesize ext (resize_array (an_f0 emo) n) (an_sp neu) (an_ap neu) sr 5
    = inr y_conv →
  sf_write ext output_file y_conv sr = None →
  truthy plot_file = false →
  main ext emotional_file neutral_file output_file plot_file st =
    (inr tt,
     State (aligned_heap (heap st) emo neu n ++ [y_conv])
           (aligned_trace (trace st) emotional_file neutral_file sr emo neu
              ++ synthesis_events sr emo neu n
              ++ write_events output_file y_conv sr
              ++ [Print "Process completed successfully."])).
Proof.
  intros Hsyn Hwrite Hplot. main_aligns Hemo Hneu. rewrite Hplot.
  run_step.
  run_with ltac:(eapply synthesize_speech_run; [solve_lookup..|eassumption]).
  run_step.
  run_with ltac:(eapply sf_write_call_run; [solve_lookup|eassumption]).
  run_step. main_state.
Qed.
End MainRuns.

(** ** Further properties of the prosody transfer *)

Section ResizeComposition.
Context {A : Type}.
Variable zero : A.
Implicit Types (a : list A) (n m i : nat).

Lemma resize_data_same_length a : resize_data zero a (length a) = a.
Proof.
  destruct (decide (length a = 0)) as [H0|H0].
  - apply nil_length_inv in H0. by subst.
  - apply list_eq. intros i. destruct (decide (i < length a)) as [Hi|Hi].
    + rewrite lookup_resize_data by lia. by rewrite Nat.mod_small.
    + rewrite (lookup_ge_None_2 a) by lia.
      apply lookup_ge_None. rewrite length_resize_data. lia.
Qed.

Lemma resize_data_twice a n m :
  m ≤ n → resize_data zero (resize_data zero a n) m = resize_data zero a m.
Proof.
  intros Hmn. apply list_eq. intros i.
  destruct (decide (i < m)) as [Hi|Hi].
  - rewrite (lookup_resize_data _ (resize_data zero a n))
      by (rewrite ?length_resize_data; lia).
    rewrite length_resize_data, Nat.mod_small by lia.
    destruct (decide (length a = 0)) as [H0|H0].
    + apply nil_length_inv in H0. subst a. rewrite !resize_data_empty.
      by rewrite !lookup_replicate_2 by lia.
    + by rewrite !lookup_resize_data by lia.
  - rewrite !(proj2 (lookup_ge_None _ _)); [done|..];
      rewrite length_resize_data; lia.
Qed.
End ResizeComposition.

(** X1: a source contour that already has the target's frame count comes
    back value for value, as a new array: the reference returned denoted
    nothing before the call and differs from the source's. *)
Theorem transfer_prosody_same_frame_count st f0_source sp_target ap_target
    src env n dims :
  heap st !! f0_source = Some src →
  heap st !! sp_target = Some env →
  nd_shape env = n :: dims →
  length (nd_data src) = n →
  ∃ f0_aligned st' aligned,
    transfer_prosody f0_source sp_target ap_target st
      = (inr (f0_aligned, sp_target, ap_target), st') ∧
    heap st' !! f0_aligned = Some aligned ∧
    nd_data aligned = nd_data src ∧
    heap st !! f0_aligned = None ∧
    f0_aligned ≠ f0_source.
Proof.
  intros Hsrc Henv Hshape <-.
  eexists _, _, _. split; [by eapply transfer_prosody_run|].
  split; [apply lookup_alloc|]. simpl.
  split; [apply resize_data_same_length|].
  split; [by apply lookup_ge_None|].
  apply lookup_lt_Some in Hsrc. unfold loc in *. lia.
Qed.

Lemma transfer_prosody_same_frame_count_witness :
  (heap Cases.store !! 0 = Some Stub.contour ∧
   heap Cases.store !! 2 = Some Cases.envelope3 ∧
   nd_shape Cases.envelope3 = [3; 2] ∧
   length (nd_data Stub.contour) = 3) ∧
  ∃ f0_aligned st' aligned,
    transfer_prosody 0 2 2 Cases.store = (inr (f0_aligned, 2, 2), st') ∧
    heap st' !! f0_aligned = Some aligned ∧
    nd_data aligned = nd_data Stub.contour ∧
    heap Cases.store !! f0_aligned = None ∧
    f0_aligned ≠ 0.
Proof.
  split; [by repeat split|].
  exact (transfer_prosody_same_frame_count Cases.store 0 2 2 Stub.contour
           Cases.envelope3 3 [2] eq_refl eq_refl eq_refl eq_refl).
Defined.

(** X2: aligning a contour to [n] frames and the result to [m ≤ n] frames
    gives the array that aligning it to [m] frames gives. *)
Theorem transfer_prosody_twice st f0_source sp1 ap1 sp2 ap2 src env1 env2
    n m dims1 dims2 :
  heap st !! f0_source = Some src →
  heap st !! sp1 = Some env1 → nd_shape env1 = n :: dims1 →
  heap st !! sp2 = Some env2 → nd_shape env2 = m :: dims2 →
  m ≤ n →
  ∃ f0_n st1 f0_m st2,
    transfer_prosody f0_source sp1 ap1 st = (inr (f0_n, sp1, ap1), st1) ∧
    transfer_prosody f0_n sp2 ap2 st1 = (inr (f0_m, sp2, ap2), st2) ∧
    heap st2 !! f0_m = Some (resize_array src m).
Proof.
  intros Hsrc H1 Hs1 H2 Hs2 Hmn.
  eexists _, _, _, _. split; [by eapply transfer_prosody_run|].
  split.
  - eapply transfer_prosody_run; [apply lookup_alloc| |exact Hs2].
    by apply lookup_app_l_Some.
  - simpl. rewrite lookup_alloc. unfold resize_array at 1. simpl.
    by rewrite resize_data_twice.
Qed.

Lemma transfer_prosody_twice_witness :
  (heap Cases.store !! 0 = Some Stub.contour ∧
   heap Cases.store !! 1 = Some Stub.envelope ∧
   heap Cases.store !! 2 = Some Cases.envelope3 ∧ 3 ≤ 5) ∧
  ∃ f0_n st1 f0_m st2,
    transfer_prosody 0 1 1 Cases.store = (inr (f0_n, 1, 1), st1) ∧
    transfer_prosody f0_n 2 2 st1 = (inr (f0_m, 2, 2), st2) ∧
    heap st2 !! f0_m = Some (resize_array Stub.contour 3).
Proof.
  assert (3 ≤ 5) as Hle by lia.
  split; [by repeat split|].
  exact (transfer_prosody_twice Cases.store 0 1 1 2 2 Stub.contour
           Stub.envelope Cases.envelope3 5 3 [2] [2]
           eq_refl eq_refl eq_refl eq_refl eq_refl Hle).
Defined.

(** X3: given a zero-dimensional envelope, [transfer_prosody] fails with
    the [IndexError] of [shape[0]]; it reads no contour, allocates nothing
    and logs nothing. *)
Theorem transfer_prosody_scalar_envelope st f0_source sp_target ap_target env :
  heap st !! sp_target = Some env →
  nd_shape env = [] →
  transfer_prosody f0_source sp_target ap_target st
    = (inl (Exn IndexError "tuple index out of range"), st).
Proof.
  intros Henv Hshape. unfold transfer_prosody, shape0.
  apply bind_fail. run_step. by rewrite Hshape.
Qed.

Lemma transfer_prosody_scalar_envelope_witness :
  (heap Cases.store !! 3 = Some Cases.scalar ∧ nd_shape Cases.scalar = []) ∧
  transfer_prosody 0 3 3 Cases.store
    = (inl (Exn IndexError "tuple index out of range"), Cases.store).
Proof.
  split; [by split|].
  exact (transfer_prosody_scalar_envelope Cases.store 0 3 3 Cases.scalar
           eq_refl eq_refl).
Defined.

(** ** The analysis *)

(** X4: when the four estimators answer, [analyze_speech] calls them once
    each, in the order dio, stonemask, cheaptrick, d4c, all on the same
    waveform and rate; cheaptrick and d4c receive the contour stonemask
    refined, not the one dio estimated; the references returned denote the
    refined contour, the envelope and the aperiodicity, and every array
    already in the store is as it was. *)
Theorem analyze_speech_pipeline ext st y sr frame_period wave f0_raw t f0 sp ap :
  heap st !! y = Some wave →
  pw_dio ext wave sr frame_period = inr (f0_raw, t) →
  pw_stonemask ext wave f0_raw t sr = inr f0 →
  pw_cheaptrick ext wave f0 t sr = inr sp →
  pw_d4c ext wave f0 t sr = inr ap →
  ∃ l_f0 l_sp l_ap st',
    analyze_speech ext y sr frame_period st = (inr (l_f0, l_sp, l_ap), st') ∧
    heap st' !! l_f0 = Some f0 ∧
    heap st' !! l_sp = Some sp ∧
    heap st' !! l_ap = Some ap ∧
    (∀ l a, heap st !! l = Some a → heap st' !! l = Some a) ∧
    trace st' = trace st ++ [PwDio wave sr frame_period;
                             PwStonemask wave f0_raw t sr;
                             PwCheaptrick wave f0 t sr;
                             PwD4c wave f0 t sr].
Proof.
  intros Hy Hdio Hstone Hct Hd4c.
  eexists _, _, _, _. split; [by eapply analyze_speech_run|]. cbn [heap trace].
  repeat split; solve_lookup.
Qed.

Lemma analyze_speech_pipeline_witness :
  heap Cases.store !! 4 = Some Cases.wave ∧
  ∃ l_f0 l_sp l_ap st',
    analyze_speech (Stub.world Stub.resampling_load) 4 22050 5 Cases.store
      = (inr (l_f0, l_sp, l_ap), st') ∧
    heap st' !! l_f0 = Some (an_f0 Answers.emo) ∧
    heap st' !! l_sp = Some (an_sp Answers.emo) ∧
    heap st' !! l_ap = Some (an_ap Answers.emo) ∧
    (∀ l a, heap Cases.store !! l = Some a → heap st' !! l = Some a) ∧
    trace st' = trace Cases.store ++ analysis_events 22050 Answers.emo.
Proof.
  split; [done|].
  exact (analyze_speech_pipeline (Stub.world Stub.resampling_load) Cases.store
           4 22050 5 Cases.wave (an_raw Answers.emo) (an_times Answers.emo)
           (an_f0 Answers.emo) (an_sp Answers.emo) (an_ap Answers.emo)
           eq_refl eq_refl eq_refl eq_refl eq_refl).
Defined.

(** X5: when dio fails, [analyze_speech] fails with dio's exception after
    that one call: stonemask, cheaptrick and d4c are not called and nothing
    is allocated. *)
Theorem analyze_speech_dio_failure ext st y sr frame_period wave e :
  heap st !! y = Some wave →
  pw_dio ext wave sr frame_period = inl e →
  analyze_speech ext y sr frame_period st
    = (inl e, State (heap st) (trace st ++ [PwDio wave sr frame_period])).
Proof.
  intros Hy Hdio. unfold analyze_speech, pw_dio_call.
  apply bind_fail. run. apply bind_fail. by apply lift_fail.
Qed.

Lemma analyze_speech_dio_failure_witness :
  (heap Cases.store !! 4 = Some Cases.wave ∧
   pw_dio Faulty.deaf Cases.wave 22050 5 = inl Faulty.no_pitch) ∧
  analyze_speech Faulty.deaf 4 22050 5 Cases.store
    = (inl Faulty.no_pitch,
       State (heap Cases.store) (trace Cases.store ++ [PwDio Cases.wave 22050 5])).
Proof.
  split; [by split|].
  exact (analyze_speech_dio_failure Faulty.deaf Cases.store 4 22050 5
           Cases.wave Faulty.no_pitch eq_refl eq_refl).
Defined.

(** ** The plotter *)

Lemma masked_unvoiced_mask a :
  nd_mask a = None →
  nd_mask (masked_unvoiced a) = Some ((λ x, (x =? 0)%float) <$> nd_data a).
Proof.
  intros Hplain. unfold masked_unvoiced. simpl. rewrite Hplain. f_equal.
  rewrite <- list_fmap_compose. apply list_fmap_ext. intros _ x _. simpl.
  by destruct (x =? 0)%float.
Qed.

(** X6: the time axis of a contour has one point per frame, the frame
    count being the contour's first dimension, and point [i] is
    [i * frame_period / 1000.0]; the contour itself is left as it was. *)
Theorem time_axis_frames st f0 frame_period a n dims :
  heap st !! f0 = Some a →
  nd_shape a = n :: dims →
  ∃ l st' axis,
    time_axis f0 frame_period st = (inr l, st') ∧
    heap st' !! l = Some axis ∧
    nd_shape axis = [n] ∧
    length (nd_data axis) = n ∧
    (∀ i, i < n →
       nd_data axis !! i = Some (of_nat i * frame_period / 1000)%float) ∧
    heap st' !! f0 = Some a.
Proof.
  intros Hf0 Hshape.
  eexists _, _, (time_axis_array n frame_period).
  split; [by eapply time_axis_run|]. cbn [heap].
  split; [solve_lookup|]. split; [done|]. simpl. split; [|split].
  - by rewrite !length_fmap, length_seq.
  - intros i Hi. rewrite !list_lookup_fmap, lookup_seq_lt by done. done.
  - solve_lookup.
Qed.

Lemma time_axis_frames_witness :
  (heap Cases.store !! 1 = Some Stub.envelope ∧
   nd_shape Stub.envelope = [5; 2]) ∧
  ∃ l st' axis,
    time_axis 1 5 Cases.store = (inr l, st') ∧
    heap st' !! l = Some axis ∧
    nd_shape axis = [5] ∧
    length (nd_data axis) = 5 ∧
    (∀ i, i < 5 → nd_data axis !! i = Some (of_nat i * 5 / 1000)%float) ∧
    heap st' !! 1 = Some Stub.envelope.
Proof.
  split; [by split|].
  exact (time_axis_frames Cases.store 1 5 Stub.envelope 5 [2] eq_refl eq_refl).
Defined.

(** X7: [np.ma.masked_where(f0 == 0, f0)] on a plain contour gives a new
    array with the contour's shape and values, masked at exactly the frames
    whose value compares equal to zero; the contour is left as it was. *)
Theorem mask_unvoiced_zero_frames st f0 a :
  heap st !! f0 = Some a →
  nd_mask a = None →
  ∃ m st' masked,
    mask_unvoiced f0 st = (inr m, st') ∧
    heap st' !! m = Some masked ∧
    nd_shape masked = nd_shape a ∧
    nd_data masked = nd_data a ∧
    nd_mask masked = Some ((λ x, (x =? 0)%float) <$> nd_data a) ∧
    m ≠ f0 ∧
    heap st' !! f0 = Some a.
Proof.
  intros Hf0 Hplain.
  eexists _, _, (masked_unvoiced a).
  split; [by eapply mask_unvoiced_run|]. cbn [heap].
  split; [solve_lookup|]. split; [done|]. split; [done|].
  split; [by apply masked_unvoiced_mask|]. split; [|solve_lookup].
  apply lookup_lt_Some in Hf0. unfold loc in *. lia.
Qed.

Lemma mask_unvoiced_zero_frames_witness :
  (heap Cases.store !! 0 = Some Stub.contour ∧ nd_mask Stub.contour = None) ∧
  ∃ m st' masked,
    mask_unvoiced 0 Cases.store = (inr m, st') ∧
    heap st' !! m = Some masked ∧
    nd_shape masked = nd_shape Stub.contour ∧
    nd_data masked = nd_data Stub.contour ∧
    nd_mask masked = Some ((λ x, (x =? 0)%float) <$> nd_data Stub.contour) ∧
    m ≠ 0 ∧
    heap st' !! 0 = Some Stub.contour.
Proof.
  split; [by split|].
  exact (mask_unvoiced_zero_frames Cases.store 0 Stub.contour eq_refl eq_refl).
Defined.

Example mask_of_stub_contour :
  nd_mask (masked_unvoiced Stub.contour) = Some [false; true; false].
Proof. reflexivity. Qed.

Section PlotOutcomes.
Variable ext : externals.
Variables (f0_emo f0_neu f0_conv : loc) (sr : Z) (frame_period : float).
Variable save_path : string.
Variables (emo neu conv : ndarray) (n_emo n_neu n_conv : nat).
Variables (d_emo d_neu d_conv : list nat).

(** X8: given three contours of at least one dimension, when matplotlib
    accepts the three lines and saves the figure, [plot_f0_contours] opens
    a figure, draws the neutral, the emotional and the converted contour in
    that order, each masked where it is zero and each against the time axis
    of its own frame count, labels and saves the figure, closes it and
    prints where it was saved. *)
Theorem plot_f0_contours_saves st :
  heap st !! f0_emo = Some emo → nd_shape emo = n_emo :: d_emo →
  heap st !! f0_neu = Some neu → nd_shape neu = n_neu :: d_neu →
  heap st !! f0_conv = Some conv → nd_shape conv = n_conv :: d_conv →
  lines_accepted ext emo neu conv n_emo n_neu n_conv frame_period →
  plt_savefig ext save_path = None →
  plot_f0_contours ext f0_emo f0_neu f0_conv sr frame_period save_path st =
    (inr tt,
     State (heap st ++ plot_objects emo neu conv n_emo n_neu n_conv frame_period)
           (trace st
              ++ plot_events emo neu conv n_emo n_neu n_conv frame_period save_path
              ++ [PltClose; Print (String.append "F0 plot saved to " save_path)])).
Proof.
  intros He Hse Hn Hsn Hc Hsc Hlines Hsave.
  erewrite plot_f0_contours_draws by eassumption.
  run. unfold print, emit. cbn [heap trace]. by rewrite <- !app_assoc.
Qed.

(** X9: when matplotlib accepts the three lines and then cannot save the
    figure, [plot_f0_contours] fails with that exception after everything
    is drawn: the figure is not closed and the message is not printed. *)
Theorem plot_f0_contours_savefig_failure st e :
  heap st !! f0_emo = Some emo → nd_shape emo = n_emo :: d_emo →
  heap st !! f0_neu = Some neu → nd_shape neu = n_neu :: d_neu →
  heap st !! f0_conv = Some conv → nd_shape conv = n_conv :: d_conv →
  lines_accepted ext emo neu conv n_emo n_neu n_conv frame_period →
  plt_savefig ext save_path = Some e →
  plot_f0_contours ext f0_emo f0_neu f0_conv sr frame_period save_path st =
    (inl e,
     State (heap st ++ plot_objects emo neu conv n_emo n_neu n_conv frame_period)
           (trace st
              ++ plot_events emo neu conv n_emo n_neu n_conv frame_period save_path)).
Proof.
  intros He Hse Hn Hsn Hc Hsc Hlines Hsave.
  erewrite plot_f0_contours_draws by eassumption.
  apply bind_fail. by apply lift_unit_fail.
Qed.

(** when matplotlib refuses the first line, the plotter stops there:
    nothing else is drawn, and nothing is saved, closed or printed *)
Lemma plot_f0_contours_line_refused st e :
  heap st !! f0_emo = Some emo → nd_shape emo = n_emo :: d_emo →
  heap st !! f0_neu = Some neu → nd_shape neu = n_neu :: d_neu →
  heap st !! f0_conv = Some conv → nd_shape conv = n_conv :: d_conv →
  plt_plot ext (time_axis_array n_neu frame_period) (masked_unvoiced neu)
    "Original Neutral F0" "blue" None 2 = Some e →
  plot_f0_contours ext f0_emo f0_neu f0_conv sr frame_period save_path st =
    (inl e,
     State (heap st ++ time_axis_objects n_emo frame_period
              ++ time_axis_objects n_neu frame_period
              ++ time_axis_objects n_conv frame_period ++ mask_objects neu)
           (trace st
              ++ [PltFigure 12 6;
                  PltPlot (time_axis_array n_neu frame_period)
                    (masked_unvoiced neu) "Original Neutral F0" "blue" None 2])).
Proof.
  intros He Hse Hn Hsn Hc Hsc Hline. unfold plot_f0_contours.
  run_step.
  run_with ltac:(eapply time_axis_run; [solve_lookup|eassumption]).
  run_with ltac:(eapply time_axis_run; [solve_lookup|eassumption]).
  run_with ltac:(eapply time_axis_run; [solve_lookup|eassumption]).
  run_with ltac:(eapply mask_unvoiced_run; solve_lookup).
  apply bind_fail.
  etrans; [eapply plt_plot_call_fail; [solve_lookup..|eassumption]|].
  cbn [heap trace]. by rewrite <- !app_assoc.
Qed.
End PlotOutcomes.

(** X10: given a zero-dimensional emotional contour, [plot_f0_contours]
    fails with the [TypeError] of [len]; by then the figure is opened, and
    nothing is drawn, saved or closed. *)
Theorem plot_f0_contours_scalar_contour ext st f0_emo f0_neu f0_conv sr
    frame_period save_path a :
  heap st !! f0_emo = Some a →
  nd_shape a = [] →
  plot_f0_contours ext f0_emo f0_neu f0_conv sr frame_period save_path st =
    (inl (Exn TypeError "len() of unsized object"),
     State (heap st) (trace st ++ [PltFigure 12 6])).
Proof.
  intros Ha Hshape. unfold plot_f0_contours. run_step.
  apply bind_fail. unfold time_axis. apply bind_fail.
  eapply len_scalar; [solve_lookup|done].
Qed.

Lemma plot_f0_contours_saves_witness :
  (heap Cases.store !! 0 = Some Stub.contour ∧
   nd_shape Stub.contour = [3] ∧
   lines_accepted (Stub.world Stub.resampling_load)
     Stub.contour Stub.contour Stub.contour 3 3 3 5 ∧
   plt_savefig (Stub.world Stub.resampling_load) "f0_comparison.png" = None) ∧
  plot_f0_contours (Stub.world Stub.resampling_load) 0 0 0 22050 5
    "f0_comparison.png" Cases.store =
    (inr tt,
     State (heap Cases.store
              ++ plot_objects Stub.contour Stub.contour Stub.contour 3 3 3 5)
           (trace Cases.store
              ++ plot_events Stub.contour Stub.contour Stub.contour 3 3 3 5
                   "f0_comparison.png"
              ++ [PltClose; Print "F0 plot saved to f0_comparison.png"])).
Proof.
  split; [by repeat split|].
  exact (plot_f0_contours_saves (Stub.world Stub.resampling_load) 0 0 0 22050 5
           "f0_comparison.png" Stub.contour Stub.contour Stub.contour 3 3 3
           [] [] [] Cases.store
           eq_refl eq_refl eq_refl eq_refl eq_refl eq_refl
           (conj eq_refl (conj eq_refl eq_refl)) eq_refl).
Defined.

Lemma plot_f0_contours_savefig_failure_witness :
  (heap Cases.store !! 0 = Some Stub.contour ∧
   nd_shape Stub.contour = [3] ∧
   lines_accepted Faulty.no_figure
     Stub.contour Stub.contour Stub.contour 3 3 3 5 ∧
   plt_savefig Faulty.no_figure "f0_comparison.png" = Some Faulty.disk_full) ∧
  plot_f0_contours Faulty.no_figure 0 0 0 22050 5 "f0_comparison.png"
    Cases.store =
    (inl Faulty.disk_full,
     State (heap Cases.store
              ++ plot_objects Stub.contour Stub.contour Stub.contour 3 3 3 5)
           (trace Cases.store
              ++ plot_events Stub.contour Stub.contour Stub.contour 3 3 3 5
                   "f0_comparison.png")).
Proof.
  split; [by repeat split|].
  exact (plot_f0_contours_savefig_failure Faulty.no_figure 0 0 0 22050 5
           "f0_comparison.png" Stub.contour Stub.contour Stub.contour 3 3 3
           [] [] [] Cases.store Faulty.disk_full
           eq_refl eq_refl eq_refl eq_refl eq_refl eq_refl
           (conj eq_refl (conj eq_refl eq_refl)) eq_refl).
Defined.

(** a contour of three dimensions: the plotter stops at the first line *)
Example plot_f0_contours_cube :
  let r := plot_f0_contours (Stub.world Stub.resampling_load) 0 0 0 22050 5
             "f0_comparison.png" Cases.cube_store in
  r.1 = inl (Exn ValueError "x and y can be no greater than 2D") ∧
  trace r.2 = [PltFigure 12 6;
               PltPlot (time_axis_array 2 5) (masked_unvoiced Cases.cube)
                 "Original Neutral F0" "blue" None 2].
Proof. vm_compute. split; reflexivity. Qed.

Lemma plot_f0_contours_scalar_contour_witness :
  (heap Cases.store !! 3 = Some Cases.scalar ∧ nd_shape Cases.scalar = []) ∧
  plot_f0_contours (Stub.world Stub.resampling_load) 3 0 0 22050 5
    "f0_comparison.png" Cases.store =
    (inl (Exn TypeError "len() of unsized object"),
     State (heap Cases.store) (trace Cases.store ++ [PltFigure 12 6])).
Proof.
  split; [by split|].
  exact (plot_f0_contours_scalar_contour (Stub.world Stub.resampling_load)
           Cases.store 3 0 0 22050 5 "f0_comparison.png" Cases.scalar
           eq_refl eq_refl).
Defined.

(** ** Runs of [main] *)

Lemma stub_analysed synthesize write savefig file_path :
  file_path = "emotion.wav"%string ∨ file_path = "neutral.wav"%string →
  analysed (Externals Stub.resampling_load Stub.dio Stub.stonemask
              Stub.cheaptrick Stub.d4c synthesize write savefig Stub.plot)
    file_path 22050 (Answers.of_file file_path).
Proof. intros [->| ->]; by repeat split. Qed.

Lemma audio_output_app tr evs :
  audio_output (tr ++ evs) = audio_output tr ++ audio_output evs.
Proof. apply omap_app. Qed.

(** X11: when the emotional recording cannot be loaded, [main] fails with
    the loader's exception; the neutral recording is not loaded and nothing
    else is done. *)
Theorem main_emotional_load_failure ext emotional_file neutral_file
    output_file plot_file st e :
  librosa_load ext emotional_file 22050 true = inl e →
  main ext emotional_file neutral_file output_file plot_file st =
    (inl e,
     State (heap st)
           (trace st ++ [Print "Loading and preprocessing audio files...";
                         LibrosaLoad emotional_file 22050 true])).
Proof.
  intros Hload. unfold main. run_step. apply bind_fail.
  rewrite (load_and_preprocess_audio_fail _ _ _ _ _ Hload). cbn [heap trace].
  by rewrite <- app_assoc.
Qed.

Lemma main_emotional_load_failure_witness :
  librosa_load (Stub.world Stub.resampling_load) "missing.wav" 22050 true
    = inl (Exn IOError "No such file or directory: 'missing.wav'") ∧
  main (Stub.world Stub.resampling_load) "missing.wav" "neutral.wav"
       "converted.wav" None Stub.empty =
    (inl (Exn IOError "No such file or directory: 'missing.wav'"),
     State (heap Stub.empty)
           (trace Stub.empty
              ++ [Print "Loading and preprocessing audio files...";
                  LibrosaLoad "missing.wav" 22050 true])).
Proof.
  split; [done|].
  exact (main_emotional_load_failure (Stub.world Stub.resampling_load)
           "missing.wav" "neutral.wav" "converted.wav" None Stub.empty _ eq_refl).
Defined.

(** X12: when the neutral recording cannot be loaded, [main] fails with
    the loader's exception after both loads, before any analysis: the
    emotional waveform stays in the store, unused. *)
Theorem main_neutral_load_failure ext emotional_file neutral_file
    output_file plot_file st y sr e :
  librosa_load ext emotional_file 22050 true = inr (y, sr) →
  librosa_load ext neutral_file 22050 true = inl e →
  main ext emotional_file neutral_file output_file plot_file st =
    (inl e,
     State (heap st ++ [y; as_float64 y])
           (trace st ++ [Print "Loading and preprocessing audio files...";
                         LibrosaLoad emotional_file 22050 true;
                         LibrosaLoad neutral_file 22050 true])).
Proof.
  intros Hemo Hneu. unfold main. run_step.
  run_with ltac:(eapply load_and_preprocess_audio_run; exact Hemo).
  apply bind_fail.
  rewrite (load_and_preprocess_audio_fail _ _ _ _ _ Hneu). cbn [heap trace].
  by rewrite <- !app_assoc.
Qed.

Lemma main_neutral_load_failure_witness :
  (librosa_load (Stub.world Stub.resampling_load) "emotion.wav" 22050 true
     = inr (Stub.samples "emotion.wav", 22050%Z) ∧
   librosa_load (Stub.world Stub.resampling_load) "missing.wav" 22050 true
     = inl (Exn IOError "No such file or directory: 'missing.wav'")) ∧
  main (Stub.world Stub.resampling_load) "emotion.wav" "missing.wav"
       "converted.wav" None Stub.empty =
    (inl (Exn IOError "No such file or directory: 'missing.wav'"),
     State (heap Stub.empty
              ++ [Stub.samples "emotion.wav";
                  as_float64 (Stub.samples "emotion.wav")])
           (trace Stub.empty
              ++ [Print "Loading and preprocessing audio files...";
                  LibrosaLoad "emotion.wav" 22050 true;
                  LibrosaLoad "missing.wav" 22050 true])).
Proof.
  split; [by split|].
  exact (main_neutral_load_failure (Stub.world Stub.resampling_load)
           "emotion.wav" "missing.wav" "converted.wav" None Stub.empty
           _ _ _ eq_refl eq_refl).
Defined.

Lemma bind_run {A B} (m m' : M A) (k : A → M B) st st' :
  m st = m' st' → bind m k st = bind m' k st'.
Proof. unfold bind. by intros ->. Qed.

Section MainOutcomes.
Variable ext : externals.
Variables (emotional_file neutral_file output_file : string).
Variables (sr : Z) (n : nat) (dims : list nat) (emo neu : analysis).
Hypothesis Hemo : analysed ext emotional_file sr emo.
Hypothesis Hneu : analysed ext neutral_file sr neu.
Hypothesis Hframes : nd_shape (an_sp neu) = n :: dims.

(** X13: when both recordings load at one rate and are analysed, and
    synthesis and writing succeed, a run of [main] writes one audio file,
    whether or not a plot is asked for and whether or not plotting
    succeeds: to [output_file], at the recordings' rate, the waveform
    synthesised from the emotional contour resized to the neutral frame
    count with the neutral envelope and aperiodicity.  The emotional
    envelope and aperiodicity are not used. *)
Theorem main_writes_converted_audio st plot_file y_conv :
  pw_synthesize ext (resize_array (an_f0 emo) n) (an_sp neu) (an_ap neu) sr 5
    = inr y_conv →
  sf_write ext output_file y_conv sr = None →
  audio_output
    (trace (main ext emotional_file neutral_file output_file plot_file st).2)
  = audio_output (trace st) ++ [(output_file, y_conv, sr)].
Proof.
  intros Hsyn Hwrite. rewrite main_audio_without_plot.
  rewrite (main_run_without_plot ext _ _ _ sr n dims emo neu Hemo Hneu Hframes
             st None y_conv Hsyn Hwrite eq_refl).
  cbn [snd trace]. unfold aligned_trace.
  rewrite !audio_output_app, <- !app_assoc. reflexivity.
Qed.

(** X14: in such a run with a plot file, contours of at least one
    dimension, and a matplotlib that accepts the three lines and saves the
    figure, [main] ends normally after plotting the neutral contour, the
    emotional contour and the converted contour, the last against a time
    axis of the neutral frame count. *)
Theorem main_run_with_plot st plot_file y_conv n_emo d_emo n_neu d_neu :
  pw_synthesize ext (resize_array (an_f0 emo) n) (an_sp neu) (an_ap neu) sr 5
    = inr y_conv →
  sf_write ext output_file y_conv sr = None →
  truthy plot_file = true →
  nd_shape (an_f0 emo) = n_emo :: d_emo →
  nd_shape (an_f0 neu) = n_neu :: d_neu →
  lines_accepted ext (an_f0 emo) (an_f0 neu) (resize_array (an_f0 emo) n)
    n_emo n_neu n 5 →
  plt_savefig ext (default ""%string plot_file) = None →
  main ext emotional_file neutral_file output_file plot_file st =
    (inr tt,
     State (aligned_heap (heap st) emo neu n ++ [y_conv]
              ++ plot_objects (an_f0 emo) (an_f0 neu)
                   (resize_array (an_f0 emo) n) n_emo n_neu n 5)
           (aligned_trace (trace st) emotional_file neutral_file sr emo neu
              ++ synthesis_events sr emo neu n
              ++ write_events output_file y_conv sr
              ++ [Print "Generating F0 contour plot for validation..."]
              ++ plot_events (an_f0 emo) (an_f0 neu)
                   (resize_array (an_f0 emo) n) n_emo n_neu n 5
                   (default ""%string plot_file)
              ++ [PltClose;
                  Print (String.append "F0 plot saved to "
                           (default ""%string plot_file));
                  Print "Process completed successfully."])).
Proof.
  intros Hsyn Hwrite Hplot Hse Hsn Hlines Hsave.
  main_aligns Hemo Hneu. rewrite Hplot.
  run_step.
  run_with ltac:(eapply synthesize_speech_run; [solve_lookup..|eassumption]).
  run_step.
  run_with ltac:(eapply sf_write_call_run; [solve_lookup|eassumption]).
  rewrite bind_assoc. run_step.
  etrans;
    [eapply bind_run;
     eapply (plot_f0_contours_draws _ _ _ _ _ _ _
               (an_f0 emo) (an_f0 neu) (resize_array (an_f0 emo) n));
     [solve_lookup|eassumption|solve_lookup|eassumption
     |solve_lookup|reflexivity|eassumption]|].
  run. main_state.
Qed.

(** X15: when synthesis fails, [main] fails with the synthesiser's
    exception: nothing is written and nothing is plotted. *)
Theorem main_synthesis_failure st plot_file e :
  pw_synthesize ext (resize_array (an_f0 emo) n) (an_sp neu) (an_ap neu) sr 5
    = inl e →
  main ext emotional_file neutral_file output_file plot_file st =
    (inl e,
     State (aligned_heap (heap st) emo neu n)
           (aligned_trace (trace st) emotional_file neutral_file sr emo neu
              ++ synthesis_events sr emo neu n)).
Proof.
  intros Hsyn. main_aligns Hemo Hneu. run_step.
  apply bind_fail. unfold synthesize_speech, pw_synthesize_call.
  apply bind_fail. run. apply bind_fail.
  etrans; [by apply lift_fail|]. main_state.
Qed.

(** X16: when the audio file cannot be written, [main] fails with the
    writer's exception right after the call: no plot is drawn even if one
    was asked for. *)
Theorem main_write_failure st plot_file y_conv e :
  pw_synthesize ext (resize_array (an_f0 emo) n) (an_sp neu) (an_ap neu) sr 5
    = inr y_conv →
  sf_write ext output_file y_conv sr = Some e →
  main ext emotional_file neutral_file output_file plot_file st =
    (inl e,
     State (aligned_heap (heap st) emo neu n ++ [y_conv])
           (aligned_trace (trace st) emotional_file neutral_file sr emo neu
              ++ synthesis_events sr emo neu n
              ++ write_events output_file y_conv sr)).
Proof.
  intros Hsyn Hwrite. main_aligns Hemo Hneu. run_step.
  run_with ltac:(eapply synthesize_speech_run; [solve_lookup..|eassumption]).
  run_step. apply bind_fail. unfold sf_write_call. run.
  etrans; [by apply lift_unit_fail|]. main_state.
Qed.

(** X17: when matplotlib accepts the three lines and then cannot save
    the figure, [main] fails with that exception, after the audio file is
    written; the closing message is not printed. *)
Theorem main_savefig_failure st plot_file y_conv n_emo d_emo n_neu d_neu e :
  pw_synthesize ext (resize_array (an_f0 emo) n) (an_sp neu) (an_ap neu) sr 5
    = inr y_conv →
  sf_write ext output_file y_conv sr = None →
  truthy plot_file = true →
  nd_shape (an_f0 emo) = n_emo :: d_emo →
  nd_shape (an_f0 neu) = n_neu :: d_neu →
  lines_accepted ext (an_f0 emo) (an_f0 neu) (resize_array (an_f0 emo) n)
    n_emo n_neu n 5 →
  plt_savefig ext (default ""%string plot_file) = Some e →
  main ext emotional_file neutral_file output_file plot_file st =
    (inl e,
     State (aligned_heap (heap st) emo neu n ++ [y_conv]
              ++ plot_objects (an_f0 emo) (an_f0 neu)
                   (resize_array (an_f0 emo) n) n_emo n_neu n 5)
           (aligned_trace (trace st) emotional_file neutral_file sr emo neu
              ++ synthesis_events sr emo neu n
              ++ write_events output_file y_conv sr
              ++ [Print "Generating F0 contour plot for validation..."]
              ++ plot_events (an_f0 emo) (an_f0 neu)
                   (resize_array (an_f0 emo) n) n_emo n_neu n 5
                   (default ""%string plot_file))).
Proof.
  intros Hsyn Hwrite Hplot Hse Hsn Hlines Hsave.
  main_aligns Hemo Hneu. rewrite Hplot.
  run_step.
  run_with ltac:(eapply synthesize_speech_run; [solve_lookup..|eassumption]).
  run_step.
  run_with ltac:(eapply sf_write_call_run; [solve_lookup|eassumption]).
  rewrite bind_assoc. run_step.
  etrans;
    [eapply bind_run;
     eapply (plot_f0_contours_draws _ _ _ _ _ _ _
               (an_f0 emo) (an_f0 neu) (resize_array (an_f0 emo) n));
     [solve_lookup|eassumption|solve_lookup|eassumption
     |solve_lookup|reflexivity|eassumption]|].
  apply bind_fail. apply bind_fail.
  etrans; [by apply lift_unit_fail|]. main_state.
Qed.
End MainOutcomes.

Lemma main_writes_converted_audio_witness :
  (analysed (Stub.world Stub.resampling_load) "emotion.wav" 22050 Answers.emo ∧
   analysed (Stub.world Stub.resampling_load) "neutral.wav" 22050 Answers.neu ∧
   nd_shape (an_sp Answers.neu) = [5; 2] ∧
   pw_synthesize (Stub.world Stub.resampling_load)
     (resize_array (an_f0 Answers.emo) 5) (an_sp Answers.neu)
     (an_ap Answers.neu) 22050 5 = inr Answers.y_conv ∧
   sf_write (Stub.world Stub.resampling_load) "converted.wav" Answers.y_conv
     22050 = None) ∧
  audio_output
    (trace (main (Stub.world Stub.resampling_load) "emotion.wav" "neutral.wav"
              "converted.wav" (Some "f0_comparison.png"%string) Stub.empty).2)
  = audio_output (trace Stub.empty)
      ++ [("converted.wav"%string, Answers.y_conv, 22050%Z)].
Proof.
  pose proof (stub_analysed Stub.synthesize (λ _ _ _, None) (λ _, None)
                "emotion.wav" (or_introl eq_refl)) as Hemo.
  pose proof (stub_analysed Stub.synthesize (λ _ _ _, None) (λ _, None)
                "neutral.wav" (or_intror eq_refl)) as Hneu.
  split; [by repeat split|].
  exact (main_writes_converted_audio (Stub.world Stub.resampling_load)
           "emotion.wav" "neutral.wav" "converted.wav" 22050 5 [2]
           Answers.emo Answers.neu Hemo Hneu eq_refl Stub.empty
           (Some "f0_comparison.png"%string) Answers.y_conv eq_refl eq_refl).
Defined.

Lemma main_run_with_plot_witness :
  (analysed (Stub.world Stub.resampling_load) "emotion.wav" 22050 Answers.emo ∧
   analysed (Stub.world Stub.resampling_load) "neutral.wav" 22050 Answers.neu ∧
   nd_shape (an_sp Answers.neu) = [5; 2] ∧
   truthy (Some "f0_comparison.png"%string) = true ∧
   nd_shape (an_f0 Answers.emo) = [3] ∧
   nd_shape (an_f0 Answers.neu) = [5] ∧
   lines_accepted (Stub.world Stub.resampling_load) (an_f0 Answers.emo)
     (an_f0 Answers.neu) (resize_array (an_f0 Answers.emo) 5) 3 5 5 5) ∧
  main (Stub.world Stub.resampling_load) "emotion.wav" "neutral.wav"
       "converted.wav" (Some "f0_comparison.png"%string) Stub.empty =
    (inr tt,
     State (aligned_heap [] Answers.emo Answers.neu 5 ++ [Answers.y_conv]
              ++ plot_objects (an_f0 Answers.emo) (an_f0 Answers.neu)
                   (resize_array (an_f0 Answers.emo) 5) 3 5 5 5)
           (aligned_trace [] "emotion.wav" "neutral.wav" 22050
                Answers.emo Answers.neu
              ++ synthesis_events 22050 Answers.emo Answers.neu 5
              ++ write_events "converted.wav" Answers.y_conv 22050
              ++ [Print "Generating F0 contour plot for validation..."]
              ++ plot_events (an_f0 Answers.emo) (an_f0 Answers.neu)
                   (resize_array (an_f0 Answers.emo) 5) 3 5 5 5
                   "f0_comparison.png"
              ++ [PltClose;
                  Print "F0 plot saved to f0_comparison.png";
                  Print "Process completed successfully."])).
Proof.
  pose proof (stub_analysed Stub.synthesize (λ _ _ _, None) (λ _, None)
                "emotion.wav" (or_introl eq_refl)) as Hemo.
  pose proof (stub_analysed Stub.synthesize (λ _ _ _, None) (λ _, None)
                "neutral.wav" (or_intror eq_refl)) as Hneu.
  split; [by repeat split|].
  exact (main_run_with_plot (Stub.world Stub.resampling_load)
           "emotion.wav" "neutral.wav" "converted.wav" 22050 5 [2]
           Answers.emo Answers.neu Hemo Hneu eq_refl Stub.empty
           (Some "f0_comparison.png"%string) Answers.y_conv 3 [] 5 []
           eq_refl eq_refl eq_refl eq_refl eq_refl
           (conj eq_refl (conj eq_refl eq_refl)) eq_refl).
Defined.

Lemma main_synthesis_failure_witness :
  (analysed Faulty.mute "emotion.wav" 22050 Answers.emo ∧
   analysed Faulty.mute "neutral.wav" 22050 Answers.neu ∧
   nd_shape (an_sp Answers.neu) = [5; 2] ∧
   pw_synthesize Faulty.mute (resize_array (an_f0 Answers.emo) 5)
     (an_sp Answers.neu) (an_ap Answers.neu) 22050 5 = inl Faulty.no_pitch) ∧
  main Faulty.mute "emotion.wav" "neutral.wav" "converted.wav"
       (Some "f0_comparison.png"%string) Stub.empty =
    (inl Faulty.no_pitch,
     State (aligned_heap [] Answers.emo Answers.neu 5)
           (aligned_trace [] "emotion.wav" "neutral.wav" 22050
                Answers.emo Answers.neu
              ++ synthesis_events 22050 Answers.emo Answers.neu 5)).
Proof.
  pose proof (stub_analysed (λ _ _ _ _ _, inl Faulty.no_pitch)
                (λ _ _ _, None) (λ _, None)
                "emotion.wav" (or_introl eq_refl)) as Hemo.
  pose proof (stub_analysed (λ _ _ _ _ _, inl Faulty.no_pitch)
                (λ _ _ _, None) (λ _, None)
                "neutral.wav" (or_intror eq_refl)) as Hneu.
  split; [by repeat split|].
  exact (main_synthesis_failure Faulty.mute
           "emotion.wav" "neutral.wav" "converted.wav" 22050 5 [2]
           Answers.emo Answers.neu Hemo Hneu eq_refl Stub.empty
           (Some "f0_comparison.png"%string) Faulty.no_pitch eq_refl).
Defined.

Lemma main_write_failure_witness :
  (analysed Faulty.read_only "emotion.wav" 22050 Answers.emo ∧
   analysed Faulty.read_only "neutral.wav" 22050 Answers.neu ∧
   nd_shape (an_sp Answers.neu) = [5; 2] ∧
   sf_write Faulty.read_only "converted.wav" Answers.y_conv 22050
     = Some Faulty.disk_full) ∧
  main Faulty.read_only "emotion.wav" "neutral.wav" "converted.wav"
       (Some "f0_comparison.png"%string) Stub.empty =
    (inl Faulty.disk_full,
     State (aligned_heap [] Answers.emo Answers.neu 5 ++ [Answers.y_conv])
           (aligned_trace [] "emotion.wav" "neutral.wav" 22050
                Answers.emo Answers.neu
              ++ synthesis_events 22050 Answers.emo Answers.neu 5
              ++ write_events "converted.wav" Answers.y_conv 22050)).
Proof.
  pose proof (stub_analysed Stub.synthesize (λ _ _ _, Some Faulty.disk_full)
                (λ _, None) "emotion.wav" (or_introl eq_refl)) as Hemo.
  pose proof (stub_analysed Stub.synthesize (λ _ _ _, Some Faulty.disk_full)
                (λ _, None) "neutral.wav" (or_intror eq_refl)) as Hneu.
  split; [by repeat split|].
  exact (main_write_failure Faulty.read_only
           "emotion.wav" "neutral.wav" "converted.wav" 22050 5 [2]
           Answers.emo Answers.neu Hemo Hneu eq_refl Stub.empty
           (Some "f0_comparison.png"%string) Answers.y_conv Faulty.disk_full
           eq_refl eq_refl).
Defined.

Lemma main_savefig_failure_witness :
  (analysed Faulty.no_figure "emotion.wav" 22050 Answers.emo ∧
   analysed Faulty.no_figure "neutral.wav" 22050 Answers.neu ∧
   nd_shape (an_sp Answers.neu) = [5; 2] ∧
   lines_accepted Faulty.no_figure (an_f0 Answers.emo)
     (an_f0 Answers.neu) (resize_array (an_f0 Answers.emo) 5) 3 5 5 5 ∧
   plt_savefig Faulty.no_figure "f0_comparison.png" = Some Faulty.disk_full) ∧
  main Faulty.no_figure "emotion.wav" "neutral.wav" "converted.wav"
       (Some "f0_comparison.png"%string) Stub.empty =
    (inl Faulty.disk_full,
     State (aligned_heap [] Answers.emo Answers.neu 5 ++ [Answers.y_conv]
              ++ plot_objects (an_f0 Answers.emo) (an_f0 Answers.neu)
                   (resize_array (an_f0 Answers.emo) 5) 3 5 5 5)
           (aligned_trace [] "emotion.wav" "neutral.wav" 22050
                Answers.emo Answers.neu
              ++ synthesis_events 22050 Answers.emo Answers.neu 5
              ++ write_events "converted.wav" Answers.y_conv 22050
              ++ [Print "Generating F0 contour plot for validation..."]
              ++ plot_events (an_f0 Answers.emo) (an_f0 Answers.neu)
                   (resize_array (an_f0 Answers.emo) 5) 3 5 5 5
                   "f0_comparison.png")).
Proof.
  pose proof (stub_analysed Stub.synthesize (λ _ _ _, None)
                (λ _, Some Faulty.disk_full)
                "emotion.wav" (or_introl eq_refl)) as Hemo.
  pose proof (stub_analysed Stub.synthesize (λ _ _ _, None)
                (λ _, Some Faulty.disk_full)
                "neutral.wav" (or_intror eq_refl)) as Hneu.
  split; [by repeat split|].
  exact (main_savefig_failure Faulty.no_figure
           "emotion.wav" "neutral.wav" "converted.wav" 22050 5 [2]
           Answers.emo Answers.neu Hemo Hneu eq_refl Stub.empty
           (Some "f0_comparison.png"%string) Answers.y_conv 3 [] 5 []
           Faulty.disk_full eq_refl eq_refl eq_refl eq_refl eq_refl
           (conj eq_refl (conj eq_refl eq_refl)) eq_refl).
Defined.

(** X18: when no plot file is given ([None] or the empty string), no run
    of [main] calls matplotlib, whatever the libraries answer. *)
Theorem main_without_plot_file ext emotional_file neutral_file output_file
    plot_file st :
  truthy plot_file = false →
  ∃ evs,
    trace (main ext emotional_file neutral_file output_file plot_file st).2
      = trace st ++ evs ∧
    Forall (λ ev, is_plt ev = false) evs.
Proof.
  intros Hplot. apply (wp_trace _ _ (λ _ _, True)).
  unfold main, load_and_preprocess_audio, librosa_load_call, astype_float64,
    analyze_speech, pw_dio_call, pw_stonemask_call, pw_cheaptrick_call,
    pw_d4c_call, transfer_prosody, shape0, np_resize, synthesize_speech,
    pw_synthesize_call, sf_write_call, default_target_sr.
  rewrite Hplot. by wp_run.
Qed.

Lemma main_without_plot_file_witness :
  truthy (Some ""%string) = false ∧
  ∃ evs,
    trace (main (Stub.world Stub.resampling_load) "emotion.wav" "neutral.wav"
             "converted.wav" (Some ""%string) Stub.empty).2
      = trace Stub.empty ++ evs ∧
    Forall (λ ev, is_plt ev = false) evs.
Proof.
  split; [done|].
  exact (main_without_plot_file (Stub.world Stub.resampling_load)
           "emotion.wav" "neutral.wav" "converted.wav" (Some ""%string)
           Stub.empty eq_refl).
Defined.


(** ** The configuration of a run *)

(** a run that takes its next statements and then goes on logs what those
    statements log first *)
Ltac trace_step :=
  rewrite ?bind_assoc;
  match goal with
  | |- context [bind ?m ?k ?st] => erewrite (bind_ok m k st) by run_side
  end;
  cbv beta iota; cbn [heap trace].

Ltac main_unfolds :=
  unfold main, load_and_preprocess_audio, librosa_load_call, astype_float64,
    analyze_speech, pw_dio_call, pw_stonemask_call, pw_cheaptrick_call,
    pw_d4c_call, transfer_prosody, shape0, np_resize, synthesize_speech,
    pw_synthesize_call, sf_write_call, default_target_sr, print.

(** whatever the rest of a run does, it only adds to the log *)
Ltac wp_rest :=
  lazymatch goal with
  | |- _ `prefix_of` trace (?m ?st).2 =>
      let H := fresh in
      let rest := fresh "rest" in
      assert (wp m (λ _, True) (λ _ _, True) st) as H
        by (main_unfolds;
            unfold plot_f0_contours, plt_plot_call, plt_savefig_call,
              time_axis, len, np_arange, mul_scalar, div_scalar,
              mask_unvoiced, eq_scalar, masked_where, print;
            wp_run; done);
      destruct (wp_trace _ _ _ _ H) as (rest & -> & _);
      exists rest; main_state
  end.

Section Configuration.
Variable ext : externals.
Variables (emotional_file neutral_file output_file : string).
Variable plot_file : option string.
Variable st : state.

Lemma main_loads_emotional :
  (trace st ++ [Print "Loading and preprocessing audio files...";
                LibrosaLoad emotional_file 22050 true])
    `prefix_of`
  trace (main ext emotional_file neutral_file output_file plot_file st).2.
Proof. main_unfolds. repeat trace_step. wp_rest. Qed.

Lemma main_loads_neutral y sr :
  librosa_load ext emotional_file 22050 true = inr (y, sr) →
  (trace st ++ [Print "Loading and preprocessing audio files...";
                LibrosaLoad emotional_file 22050 true;
                LibrosaLoad neutral_file 22050 true])
    `prefix_of`
  trace (main ext emotional_file neutral_file output_file plot_file st).2.
Proof. intros Hemo. main_unfolds. repeat trace_step. wp_rest. Qed.

Lemma main_analyses_emotional y_emo y_neu sr :
  librosa_load ext emotional_file 22050 true = inr (y_emo, sr) →
  librosa_load ext neutral_file 22050 true = inr (y_neu, sr) →
  (trace st ++ [Print "Loading and preprocessing audio files...";
                LibrosaLoad emotional_file 22050 true;
                LibrosaLoad neutral_file 22050 true;
                Print "Analyzing speech signals using WORLD vocoder...";
                PwDio (as_float64 y_emo) sr 5])
    `prefix_of`
  trace (main ext emotional_file neutral_file output_file plot_file st).2.
Proof.
  intros Hemo Hneu. main_unfolds. repeat trace_step.
  rewrite Z.eqb_refl; cbn [negb]; cbv zeta. repeat trace_step. wp_rest.
Qed.

Section Analysed.
Variables (sr : Z) (n : nat) (dims : list nat) (emo neu : analysis).
Hypothesis Hemo : analysed ext emotional_file sr emo.

Lemma main_analyses_neutral y_neu :
  librosa_load ext neutral_file 22050 true = inr (y_neu, sr) →
  (trace st ++ [Print "Loading and preprocessing audio files...";
                LibrosaLoad emotional_file 22050 true;
                LibrosaLoad neutral_file 22050 true;
                Print "Analyzing speech signals using WORLD vocoder..."]
            ++ analysis_events sr emo
            ++ [PwDio (as_float64 y_neu) sr 5])
    `prefix_of`
  trace (main ext emotional_file neutral_file output_file plot_file st).2.
Proof.
  intros Hneu. destruct Hemo as (? & ? & ? & ? & ?). unfold an_wave in *.
  main_unfolds. repeat trace_step.
  rewrite Z.eqb_refl; cbn [negb]; cbv zeta. repeat trace_step. wp_rest.
Qed.

Hypothesis Hneu : analysed ext neutral_file sr neu.
Hypothesis Hframes : nd_shape (an_sp neu) = n :: dims.

Lemma main_synthesises :
  (aligned_trace (trace st) emotional_file neutral_file sr emo neu
     ++ synthesis_events sr emo neu n)
    `prefix_of`
  trace (main ext emotional_file neutral_file output_file plot_file st).2.
Proof.
  destruct Hemo as (? & ? & ? & ? & ?). destruct Hneu as (? & ? & ? & ? & ?).
  unfold an_wave in *.
  main_unfolds. repeat trace_step.
  rewrite Z.eqb_refl; cbn [negb]; cbv zeta. repeat trace_step.
  rewrite Hframes. repeat trace_step. wp_rest.
Qed.

Lemma main_plots y_conv n_emo d_emo n_neu d_neu :
  pw_synthesize ext (resize_array (an_f0 emo) n) (an_sp neu) (an_ap neu) sr 5
    = inr y_conv →
  sf_write ext output_file y_conv sr = None →
  truthy plot_file = true →
  nd_shape (an_f0 emo) = n_emo :: d_emo →
  nd_shape (an_f0 neu) = n_neu :: d_neu →
  lines_accepted ext (an_f0 emo) (an_f0 neu) (resize_array (an_f0 emo) n)
    n_emo n_neu n 5 →
  (aligned_trace (trace st) emotional_file neutral_file sr emo neu
     ++ synthesis_events sr emo neu n
     ++ write_events output_file y_conv sr
     ++ [Print "Generating F0 contour plot for validation..."]
     ++ plot_events (an_f0 emo) (an_f0 neu) (resize_array (an_f0 emo) n)
          n_emo n_neu n 5 (default ""%string plot_file))
    `prefix_of`
  trace (main ext emotional_file neutral_file output_file plot_file st).2.
Proof.
  intros Hsyn Hwrite Hplot Hse Hsn Hlines.
  destruct Hemo as (? & ? & ? & ? & ?). destruct Hneu as (? & ? & ? & ? & ?).
  unfold an_wave in *.
  main_unfolds. repeat trace_step.
  rewrite Z.eqb_refl; cbn [negb]; cbv zeta. repeat trace_step.
  rewrite Hframes. repeat trace_step.
  rewrite Hplot. repeat trace_step.
  rewrite ?bind_assoc.
  match goal with
  | |- context [bind ?m ?k ?st0] =>
      erewrite (bind_run m _ k st0)
        by (eapply (plot_f0_contours_draws _ _ _ _ _ _ _
                      (an_f0 emo) (an_f0 neu) (resize_array (an_f0 emo) n));
            [solve_lookup|eassumption|solve_lookup|eassumption
            |solve_lookup|reflexivity|eassumption])
  end.
  cbn [heap trace]. wp_rest.
Qed.
End Analysed.
End Configuration.

(** C8: in every run of [main] the configuration is fixed.  No call is made
    with another one: every load asks for 22050 Hz, every analysis and every
    synthesis is given a frame period of 5 ms, and every line is plotted
    against a time axis of 5 ms frames.  And the calls are made with it:
    the run starts by asking the loader for the emotional recording at
    22050 Hz; when that load answers, it asks for the neutral recording at
    22050 Hz; when both loads answer with one rate, it starts the analysis of
    the emotional waveform with a frame period of 5 ms and, when that
    analysis answers, the analysis of the neutral waveform with 5 ms; when
    both recordings are analysed and the neutral envelope has frames, it
    calls the synthesiser with 5 ms; and when the audio is synthesised and
    written, a plot file is given, the contours have frames and matplotlib
    accepts the lines, it plots the three contours against time axes of
    5 ms frames. *)
Theorem main_fixed_configuration ext emotional_file neutral_file output_file
    plot_file st :
  let tr :=
    trace (main ext emotional_file neutral_file output_file plot_file st).2 in
  (∃ evs, tr = trace st ++ evs ∧ Forall fixed_config evs) ∧
  (trace st ++ [Print "Loading and preprocessing audio files...";
                LibrosaLoad emotional_file 22050 true]) `prefix_of` tr ∧
  (∀ y_emo sr,
     librosa_load ext emotional_file 22050 true = inr (y_emo, sr) →
     (trace st ++ [Print "Loading and preprocessing audio files...";
                   LibrosaLoad emotional_file 22050 true;
                   LibrosaLoad neutral_file 22050 true]) `prefix_of` tr) ∧
  (∀ y_emo y_neu sr,
     librosa_load ext emotional_file 22050 true = inr (y_emo, sr) →
     librosa_load ext neutral_file 22050 true = inr (y_neu, sr) →
     (trace st ++ [Print "Loading and preprocessing audio files...";
                   LibrosaLoad emotional_file 22050 true;
                   LibrosaLoad neutral_file 22050 true;
                   Print "Analyzing speech signals using WORLD vocoder...";
                   PwDio (as_float64 y_emo) sr 5]) `prefix_of` tr) ∧
  (∀ sr emo y_neu,
     analysed ext emotional_file sr emo →
     librosa_load ext neutral_file 22050 true = inr (y_neu, sr) →
     (trace st ++ [Print "Loading and preprocessing audio files...";
                   LibrosaLoad emotional_file 22050 true;
                   LibrosaLoad neutral_file 22050 true;
                   Print "Analyzing speech signals using WORLD vocoder..."]
               ++ analysis_events sr emo
               ++ [PwDio (as_float64 y_neu) sr 5]) `prefix_of` tr) ∧
  (∀ sr n dims emo neu,
     analysed ext emotional_file sr emo →
     analysed ext neutral_file sr neu →
     nd_shape (an_sp neu) = n :: dims →
     (aligned_trace (trace st) emotional_file neutral_file sr emo neu
        ++ synthesis_events sr emo neu n) `prefix_of` tr) ∧
  (∀ sr n dims emo neu y_conv n_emo d_emo n_neu d_neu,
     analysed ext emotional_file sr emo →
     analysed ext neutral_file sr neu →
     nd_shape (an_sp neu) = n :: dims →
     pw_synthesize ext (resize_array (an_f0 emo) n) (an_sp neu) (an_ap neu)
       sr 5 = inr y_conv →
     sf_write ext output_file y_conv sr = None →
     truthy plot_file = true →
     nd_shape (an_f0 emo) = n_emo :: d_emo →
     nd_shape (an_f0 neu) = n_neu :: d_neu →
     lines_accepted ext (an_f0 emo) (an_f0 neu) (resize_array (an_f0 emo) n)
       n_emo n_neu n 5 →
     (aligned_trace (trace st) emotional_file neutral_file sr emo neu
        ++ synthesis_events sr emo neu n
        ++ write_events output_file y_conv sr
        ++ [Print "Generating F0 contour plot for validation..."]
        ++ plot_events (an_f0 emo) (an_f0 neu) (resize_array (an_f0 emo) n)
             n_emo n_neu n 5 (default ""%string plot_file)) `prefix_of` tr).
Proof.
  cbv zeta. repeat apply conj.
  - destruct (wp_trace _ _ _ _
                (wp_main ext emotional_file neutral_file output_file plot_file st))
      as (evs & Ht & Hevs).
    exists evs. split; [done|].
    eapply Forall_impl; [exact Hevs|]. by intros ev [Hev _].
  - apply main_loads_emotional.
  - intros y_emo sr. apply main_loads_neutral.
  - intros y_emo y_neu sr. apply main_analyses_emotional.
  - intros sr emo y_neu Hemo. by apply main_analyses_neutral.
  - intros sr n dims emo neu. apply main_synthesises.
  - intros sr n dims emo neu y_conv n_emo d_emo n_neu d_neu Hemo Hneu Hframes.
    by apply (main_plots _ _ _ _ _ _ sr n dims emo neu Hemo Hneu Hframes).
Qed.

Lemma main_fixed_configuration_witness :
  (analysed (Stub.world Stub.resampling_load) "emotion.wav" 22050 Answers.emo ∧
   analysed (Stub.world Stub.resampling_load) "neutral.wav" 22050 Answers.neu ∧
   nd_shape (an_sp Answers.neu) = [5; 2] ∧
   pw_synthesize (Stub.world Stub.resampling_load)
     (resize_array (an_f0 Answers.emo) 5) (an_sp Answers.neu)
     (an_ap Answers.neu) 22050 5 = inr Answers.y_conv ∧
   sf_write (Stub.world Stub.resampling_load) "converted.wav" Answers.y_conv
     22050 = None ∧
   truthy (Some "f0_comparison.png"%string) = true ∧
   nd_shape (an_f0 Answers.emo) = [3] ∧
   nd_shape (an_f0 Answers.neu) = [5] ∧
   lines_accepted (Stub.world Stub.resampling_load) (an_f0 Answers.emo)
     (an_f0 Answers.neu) (resize_array (an_f0 Answers.emo) 5) 3 5 5 5) ∧
  (aligned_trace [] "emotion.wav" "neutral.wav" 22050 Answers.emo Answers.neu
     ++ synthesis_events 22050 Answers.emo Answers.neu 5
     ++ write_events "converted.wav" Answers.y_conv 22050
     ++ [Print "Generating F0 contour plot for validation..."]
     ++ plot_events (an_f0 Answers.emo) (an_f0 Answers.neu)
          (resize_array (an_f0 Answers.emo) 5) 3 5 5 5 "f0_comparison.png")
    `prefix_of`
  trace (main (Stub.world Stub.resampling_load) "emotion.wav" "neutral.wav"
           "converted.wav" (Some "f0_comparison.png"%string) Stub.empty).2.
Proof.
  pose proof (stub_analysed Stub.synthesize (λ _ _ _, None) (λ _, None)
                "emotion.wav" (or_introl eq_refl)) as Hemo.
  pose proof (stub_analysed Stub.synthesize (λ _ _ _, None) (λ _, None)
                "neutral.wav" (or_intror eq_refl)) as Hneu.
  split; [by repeat split|].
  exact (proj2 (proj2 (proj2 (proj2 (proj2 (proj2
           (main_fixed_configuration (Stub.world Stub.resampling_load)
              "emotion.wav" "neutral.wav" "converted.wav"
              (Some "f0_comparison.png"%string) Stub.empty))))))
           22050%Z 5 [2] Answers.emo Answers.neu Answers.y_conv 3 [] 5 []
           Hemo Hneu eq_refl eq_refl eq_refl eq_refl eq_refl eq_refl
           (conj eq_refl (conj eq_refl eq_refl))).
Defined.
